(** * Verification of the request router (inspired_by_flask/router/router.py)

    A shallow embedding of the routing core: URL template parsing, typed
    parameter extraction, the three Route variants, RouteSet and Router.

    Conventions of the embedding
    - a Python [str] is a [string]; a [str] with characters outside ASCII
      is read as its UTF-8 encoding, which changes nothing to the module:
      it only looks for the ASCII characters [/], [<], [>], [:] and the
      newline, and compares segments for equality;
    - a raised exception is the [Err] branch of [result]; the exception
      classes of the module and of the built-ins it can trigger are the
      constructors of [exn];
    - [params_dict] (iterated with [.items()]) is an insertion-ordered
      dictionary, [odict]; dictionaries that are only indexed are [gmap]s;
    - the class attribute [RouteSet.__all_routes] is never rebound by
      [__init__], so it is one list shared by all instances: it is the
      explicit class state [RouteSetClass], threaded through every operation
      of every Router, while the instance attributes live in the instance
      values [RouteSet] and [Router]. *)

From Stdlib Require Import Ascii ZArith.
From stdpp Require Import base option list strings gmap pretty.


(** ** Exceptions and results *)

Inductive exn : Type :=
  | UrlFormatError (msg : string)   (* class UrlFormatError(ValueError) *)
  | ValueError (msg : string)
  | KeyError (key : string)
  | AttributeError (msg : string).

Inductive result (A : Type) : Type :=
  | Ok (a : A)
  | Err (e : exn).
Arguments Ok {A} a.
Arguments Err {A} e.

Definition bind {A B} (r : result A) (k : A → result B) : result B :=
  match r with
  | Ok a => k a
  | Err e => Err e
  end.

Notation "x ← r ; k" := (bind r (λ x, k))
  (at level 20, r at level 100, k at level 200, only parsing).

Definition result_map {A B} (f : A → B) (r : result A) : result B :=
  match r with
  | Ok a => Ok (f a)
  | Err e => Err e
  end.

Infix "<$$>" := result_map (at level 61, left associativity).

Definition is_ok {A} (r : result A) : bool :=
  match r with Ok _ => true | Err _ => false end.

(** [isinstance(e, ValueError)]: UrlFormatError derives from ValueError. *)
Definition is_ValueError (e : exn) : bool :=
  match e with
  | UrlFormatError _ | ValueError _ => true
  | KeyError _ | AttributeError _ => false
  end.

Definition is_UrlFormatError (e : exn) : bool :=
  match e with
  | UrlFormatError _ => true
  | _ => false
  end.

(** ** Strings *)

Definition newline : ascii := "010"%char.
Definition is_newline (c : ascii) : bool := bool_decide (c = newline).

(** [s.split("/")] *)
Fixpoint split_slash (s : string) : list string :=
  match s with
  | EmptyString => [EmptyString]
  | String c s' =>
      if bool_decide (c = "/"%char) then EmptyString :: split_slash s'
      else match split_slash s' with
           | seg :: segs => String c seg :: segs
           | [] => [String c EmptyString]
           end
  end.

(** ["/".join(l)] *)
Fixpoint join_slash (l : list string) : string :=
  match l with
  | [] => ""
  | [x] => x
  | x :: l' => x +:+ "/" +:+ join_slash l'
  end.

(** ** Insertion-ordered dictionaries

    [d[k] = v] keeps the position of a key that is already present. *)

Definition odict (V : Type) : Type := list (string * V).

Fixpoint dict_set {V} (k : string) (v : V) (d : odict V) : odict V :=
  match d with
  | [] => [(k, v)]
  | (k', v') :: d' =>
      if bool_decide (k' = k) then (k, v) :: d' else (k', v') :: dict_set k v d'
  end.

Fixpoint dict_get {V} (k : string) (d : odict V) : option V :=
  match d with
  | [] => None
  | (k', v') :: d' => if bool_decide (k' = k) then Some v' else dict_get k d'
  end.

(** ** The two regular expressions

    Python's [re] is a backtracking matcher; [.] matches every character
    but the newline. *)

(** Every way [.+] can consume a prefix, in the order the greedy matcher
    tries them (longest first), each with the rest of the input. *)
Fixpoint dot_plus (s : string) : list (string * string) :=
  match s with
  | EmptyString => []
  | String c s' =>
      if is_newline c then []
      else map (λ pr, (String c pr.1, pr.2)) (dot_plus s')
             ++ [(String c EmptyString, s')]
  end.

Fixpoint first_some {A B} (f : A → option B) (l : list A) : option B :=
  match l with
  | [] => None
  | a :: l' => match f a with
               | Some b => Some b
               | None => first_some f l'
               end
  end.

(** [(?P<name>.+){1}\>] *)
Definition match_name_close (s : string) : option string :=
  first_some (λ pr, match pr.2 with
                    | String ">" _ => Some pr.1
                    | _ => None
                    end) (dot_plus s).

(** [(?P<type>.+):] followed by the rest of the pattern *)
Definition match_type_name_close (s : string) : option (string * string) :=
  first_some (λ pr, match pr.2 with
                    | String ":" r => (λ n, (pr.1, n)) <$> match_name_close r
                    | _ => None
                    end) (dot_plus s).

(** [_URL_PARAMS_TYPE_FINDER.match(s)]: the pattern
    [\<((?P<type>.+):)?(?P<name>.+){1}\>] anchored at the start of [s] only.
    The result is the pair of the groups [type] (None when the optional
    group did not take part) and [name]. *)
Definition URL_PARAMS_TYPE_FINDER_match (s : string)
  : option (option string * string) :=
  match s with
  | String "<" t =>
      match match_type_name_close t with
      | Some (ty, n) => Some (Some ty, n)
      | None => (λ n, (None, n)) <$> match_name_close t
      end
  | _ => None
  end.

(** The lazy [.+?\>] after the first consumed character: the shortest
    newline-free run up to the next [>]. *)
Fixpoint lazy_close (s : string) : option string :=
  match s with
  | EmptyString => None
  | String c s' =>
      if bool_decide (c = ">"%char) then Some ">"
      else if is_newline c then None
      else String c <$> lazy_close s'
  end.

(** One attempt of [(\<.+?\>)] at the start of [s]. *)
Definition URL_PARAMS_FINDER_match_at (s : string) : option string :=
  match s with
  | String "<" (String c s') =>
      if is_newline c then None
      else (λ b, String "<" (String c b)) <$> lazy_close s'
  | _ => None
  end.

(** [_URL_PARAMS_FINDER.findall(s)]: leftmost non-overlapping matches.
    [skip] counts the characters of the last match still to be passed
    over before the search resumes. *)
Fixpoint findall_from (skip : nat) (s : string) : list string :=
  match s with
  | EmptyString => []
  | String _ s' =>
      match skip with
      | S k => findall_from k s'
      | O => match URL_PARAMS_FINDER_match_at s with
             | Some tok => tok :: findall_from (String.length tok - 1) s'
             | None => findall_from 0 s'
             end
      end
  end.

Definition URL_PARAMS_FINDER_findall (s : string) : list string :=
  findall_from 0 s.

(** ** The Python run-time under the module

    The built-ins [int], [float], [str] and the library function
    [urllib.parse.urljoin] are not code of the repository: they are the
    fields of [PyRuntime], and every general statement below holds for any
    of them. [None] stands for a raised [ValueError]. *)

Class PyRuntime : Type := {
  pyfloat : Type;                           (* the values of type float *)
  int_of_str : string → option Z;           (* int(s) *)
  float_of_str : string → option pyfloat;   (* float(s) *)
  pyobject : Type;                          (* the values of default_params *)
  py_str : pyobject → string;               (* str(x) *)
  urljoin : string → string → option string (* urljoin(base, url) *)
}.

(** Modelled from the spec: the enumeration [HttpMethod] of the module
    [http_utils], which is not among the sources ("Verb: enumerated value,
    one of GET, POST"). *)
Inductive HttpMethod : Type := GET | POST.

Global Instance HttpMethod_eq_dec : EqDecision HttpMethod.
Proof. solve_decision. Defined.

(** The type objects the module uses as converters. *)
Inductive pytype : Type := T_int | T_float | T_str.

(** [_PARAM_TYPE_MAPPER = defaultdict(lambda: str, {"int": int, "float": float})],
    indexed with the group [type] of a match ([None] when absent). *)
Definition PARAM_TYPE_MAPPER (key : option string) : pytype :=
  match key with
  | Some "int" => T_int
  | Some "float" => T_float
  | _ => T_str
  end.

Record UrlParamFormatter : Type := mkFormatter { converter : pytype }.

(** [parse_url(url_format, url)]: the loop over [zip(url_format_list, url_list)]. *)
Fixpoint parse_url_loop (pairs : list (string * string))
    (params_dict : odict string) : result (odict string) :=
  match pairs with
  | [] => Ok params_dict
  | (format_part, request_part) :: rest =>
      if bool_decide (format_part = request_part) then
        parse_url_loop rest params_dict
      else
        match URL_PARAMS_TYPE_FINDER_match format_part with
        | None =>
            Err (UrlFormatError
                   "part of the path of the url was different and wasn't a param")
        | Some (_, name) =>
            parse_url_loop rest (dict_set name request_part params_dict)
        end
  end.

Definition parse_url (url_format url : string) : result (odict string) :=
  let url_format_list := split_slash url_format in
  let url_list := split_slash url in
  if bool_decide (length url_format_list ≠ length url_list) then
    Err (UrlFormatError "len of format url is different from given url")
  else parse_url_loop (zip url_format_list url_list) [].

(** [param.group("name")] on the result of a match: [param] is [None] when
    the match failed. *)
Definition group_name (param : option (option string * string)) : result string :=
  match param with
  | Some (_, name) => Ok name
  | None => Err (AttributeError "'NoneType' object has no attribute 'group'")
  end.

Fixpoint required_params_loop (tokens : list string)
    (params_formatters : gmap string UrlParamFormatter)
  : result (gmap string UrlParamFormatter) :=
  match tokens with
  | [] => Ok params_formatters
  | token :: rest =>
      let param := URL_PARAMS_TYPE_FINDER_match token in
      let param_type :=
        match param with
        | Some (ty, _) => ty
        | None => Some "str"
        end in
      let param_type := PARAM_TYPE_MAPPER param_type in
      name ← group_name param;
      required_params_loop rest (<[name := mkFormatter param_type]> params_formatters)
  end.

Definition from_url_get_required_params (url_format : string)
  : result (gmap string UrlParamFormatter) :=
  required_params_loop (URL_PARAMS_FINDER_findall url_format) ∅.

(** The generator [from_url_get_required_params_names], run to its end. *)
Fixpoint required_params_names_loop (tokens : list string) : result (list string) :=
  match tokens with
  | [] => Ok []
  | token :: rest =>
      name ← group_name (URL_PARAMS_TYPE_FINDER_match token);
      names ← required_params_names_loop rest;
      Ok (name :: names)
  end.

Definition from_url_get_required_params_names (url_format : string)
  : result (list string) :=
  required_params_names_loop (URL_PARAMS_FINDER_findall url_format).

(** ** Routes *)

Section Routes.
Context `{PyRuntime} {Handler : Type}.

(** The typed values a converter produces. *)
Inductive pyval : Type :=
  | VInt (z : Z)
  | VFloat (x : pyfloat)
  | VStr (s : string).

(** [UrlParamFormatter.convert]: [self.converter(value)] *)
Definition convert (self : UrlParamFormatter) (value : string) : result pyval :=
  match converter self with
  | T_int =>
      match int_of_str value with
      | Some z => Ok (VInt z)
      | None => Err (ValueError "invalid literal for int() with base 10")
      end
  | T_float =>
      match float_of_str value with
      | Some x => Ok (VFloat x)
      | None => Err (ValueError "could not convert string to float")
      end
  | T_str => Ok (VStr value)
  end.

(** [UrlParamFormatter.is_convertable]: [try ... except ValueError] *)
Definition is_convertable (self : UrlParamFormatter) (value : string) : result bool :=
  match convert self value with
  | Ok _ => Ok true
  | Err e => if is_ValueError e then Ok false else Err e
  end.

(** [SimpleRoute]; a [DefaultRoute] has the same attributes. *)
Record SimpleRoute : Type := mkSimpleRoute {
  mapped_url : string;
  accepted_methods : list HttpMethod;
  reqired_url_params : gmap string UrlParamFormatter;
  handler : Handler
}.

Definition SimpleRoute_init (url : string) (handler : Handler)
    (accepted_methods : list HttpMethod) : result SimpleRoute :=
  params ← from_url_get_required_params url;
  Ok (mkSimpleRoute url accepted_methods params handler).

Definition DefaultRoute_init (url : string) (handler : Handler) : result SimpleRoute :=
  SimpleRoute_init url handler [].

(** [self.__reqired_url_params[key]] *)
Definition formatter_of (self : SimpleRoute) (key : string) : result UrlParamFormatter :=
  match reqired_url_params self !! key with
  | Some f => Ok f
  | None => Err (KeyError key)
  end.

(** [all(self.__reqired_url_params[key].is_convertable(value) for key, value in items)] *)
Fixpoint all_convertable (self : SimpleRoute) (items : odict string) : result bool :=
  match items with
  | [] => Ok true
  | (key, value) :: rest =>
      f ← formatter_of self key;
      b ← is_convertable f value;
      if b then all_convertable self rest else Ok false
  end.

(** [SimpleRoute.validate_url]: the whole body is inside
    [try ... except UrlFormatError: return False]. *)
Definition SimpleRoute_validate_url (self : SimpleRoute) (url : string) : result bool :=
  match (items ← parse_url (mapped_url self) url; all_convertable self items) with
  | Err e => if is_UrlFormatError e then Ok false else Err e
  | r => r
  end.

(** The dict comprehension of [SimpleRoute.parse_url]. *)
Fixpoint convert_items (self : SimpleRoute) (items : odict string)
    (acc : odict pyval) : result (odict pyval) :=
  match items with
  | [] => Ok acc
  | (key, value) :: rest =>
      f ← formatter_of self key;
      v ← convert f value;
      convert_items self rest (dict_set key v acc)
  end.

Definition SimpleRoute_parse_url (self : SimpleRoute) (url : string)
  : result (Handler * option (odict pyval)) :=
  items ← parse_url (mapped_url self) url;
  params ← convert_items self items [];
  Ok (handler self, Some params).

(** [DefaultRoute.parse_url] *)
Definition DefaultRoute_parse_url (self : SimpleRoute) (url : string)
  : result (Handler * option (odict pyval)) :=
  Ok (handler self, None).

(** The class of an object for which [isinstance(x, SimpleRoute)] holds:
    SimpleRoute, or its subclass DefaultRoute, which overrides [parse_url]
    and inherits the rest. *)
Inductive simple_class : Type := C_SimpleRoute | C_DefaultRoute.

(** [NestedRoute]: [mapped_route] is the wrapped object, given by its
    attributes and its class. *)
Record NestedRoute : Type := mkNestedRoute {
  n_mapped_url : string;
  n_accepted_methods : list HttpMethod;
  mapped_route : SimpleRoute;
  mapped_route_class : simple_class;
  default_url_params_str : string
}.

Definition NestedRoute_init (url : string) (mapped_route : SimpleRoute)
    (mapped_route_class : simple_class)
    (accepted_methods : list HttpMethod) (default_url_params : gmap string pyobject)
  : result NestedRoute :=
  names ← from_url_get_required_params_names (mapped_url mapped_route);
  Ok (mkNestedRoute url accepted_methods mapped_route mapped_route_class
        (join_slash (omap (λ param_name, py_str <$> default_url_params !! param_name)
                          names))).

(** [urljoin(url + "/", self.__default_url_params_str)]: the call is inside
    no [try], so that the ValueError of [urljoin] leaves the method. *)
Definition NestedRoute_joined_url (self : NestedRoute) (url : string) : result string :=
  match urljoin (url +:+ "/") (default_url_params_str self) with
  | Some joined => Ok joined
  | None => Err (ValueError "Invalid IPv6 URL")
  end.

Definition NestedRoute_validate_url (self : NestedRoute) (url : string) : result bool :=
  joined ← NestedRoute_joined_url self url;
  SimpleRoute_validate_url (mapped_route self) joined.

(** [self.mapped_route.parse_url(...)] is the method of the class of the
    wrapped object. *)
Definition NestedRoute_parse_url (self : NestedRoute) (url : string)
  : result (Handler * option (odict pyval)) :=
  joined ← NestedRoute_joined_url self url;
  match mapped_route_class self with
  | C_SimpleRoute => SimpleRoute_parse_url (mapped_route self) joined
  | C_DefaultRoute => DefaultRoute_parse_url (mapped_route self) joined
  end.

(** The objects of the class hierarchy under [Route]. *)
Inductive Route : Type :=
  | R_Simple (r : SimpleRoute)
  | R_Default (r : SimpleRoute)
  | R_Nested (r : NestedRoute).

Definition Route_mapped_url (self : Route) : string :=
  match self with
  | R_Simple r | R_Default r => mapped_url r
  | R_Nested r => n_mapped_url r
  end.

Definition Route_accepted_methods (self : Route) : list HttpMethod :=
  match self with
  | R_Simple r | R_Default r => accepted_methods r
  | R_Nested r => n_accepted_methods r
  end.

(** [Route.__eq__] between two routes ([accepted_methods] are lists). *)
Definition Route_eq (self other : Route) : bool :=
  bool_decide (Route_mapped_url self = Route_mapped_url other)
  && bool_decide (Route_accepted_methods self = Route_accepted_methods other).

(** [Route.validate_method]: [method in self.accepted_methods] *)
Definition validate_method (self : Route) (method : HttpMethod) : bool :=
  bool_decide (method ∈ Route_accepted_methods self).

Definition validate_url (self : Route) (url : string) : result bool :=
  match self with
  | R_Simple r | R_Default r => SimpleRoute_validate_url r url
  | R_Nested r => NestedRoute_validate_url r url
  end.

Definition Route_parse_url (self : Route) (url : string)
  : result (Handler * option (odict pyval)) :=
  match self with
  | R_Simple r => SimpleRoute_parse_url r url
  | R_Default r => DefaultRoute_parse_url r url
  | R_Nested r => NestedRoute_parse_url r url
  end.

(** ** RouteSet

    [__all_routes] is an attribute of the class, [__default_route] of the
    instance. *)

Record RouteSetClass : Type := mkRouteSetClass { all_routes : list Route }.

Record RouteSet : Type := mkRouteSet { default_route : SimpleRoute }.

Definition RouteSet_init (default_route : SimpleRoute) : RouteSet :=
  mkRouteSet default_route.

Definition RouteSet_set_default_route_handler (self : RouteSet)
    (default_handler : Handler) : RouteSet :=
  let d := default_route self in
  mkRouteSet (mkSimpleRoute (mapped_url d) (accepted_methods d)
                (reqired_url_params d) default_handler).

Definition RouteSet_add_route (cls : RouteSetClass) (self : RouteSet)
    (new_route : Route) : bool * RouteSetClass :=
  if existsb (λ route, Route_eq route new_route) (all_routes cls) then (false, cls)
  else (true, mkRouteSetClass (all_routes cls ++ [new_route])).

(** The lambda of [get_route]: [and] evaluates its right operand only when
    the left one is true. *)
Definition route_accepts (url : string) (method : HttpMethod) (x : Route) : result bool :=
  if validate_method x method then validate_url x url else Ok false.

(** [next(filter(pred, routes), default)] *)
Fixpoint next_filter (pred : Route → result bool) (routes : list Route)
    (default : Route) : result Route :=
  match routes with
  | [] => Ok default
  | x :: rest =>
      b ← pred x;
      if b then Ok x else next_filter pred rest default
  end.

Definition RouteSet_get_route (cls : RouteSetClass) (self : RouteSet)
    (url : string) (method : HttpMethod) : result Route :=
  next_filter (route_accepts url method) (all_routes cls)
    (R_Default (default_route self)).

(** ** Router *)

Record Router : Type := mkRouter { routes : RouteSet }.

Definition Router_init (default_handler : Handler) : result Router :=
  d ← DefaultRoute_init "" default_handler;
  Ok (mkRouter (RouteSet_init d)).

Definition Router_set_default_handler (self : Router) (default_handler : Handler) : Router :=
  mkRouter (RouteSet_set_default_route_handler (routes self) default_handler).

Definition Router_get_handler (cls : RouteSetClass) (self : Router)
    (url : string) (method : HttpMethod) : result (Handler * option (odict pyval)) :=
  r ← RouteSet_get_route cls (routes self) url method;
  Route_parse_url r url.

(** What a caller can pass as [handler] to [Router.add_route]. *)
Inductive handler_arg : Type :=
  | A_SimpleRoute (r : SimpleRoute)   (* isinstance(handler, SimpleRoute) *)
  | A_DefaultRoute (r : SimpleRoute)  (* the same: DefaultRoute is a subclass *)
  | A_Callable (h : Handler)          (* isinstance(handler, Callable) *)
  | A_NestedRoute (r : NestedRoute)   (* neither: a Route has no __call__ *)
  | A_Other.                          (* neither: any other object *)

Definition Router_add_route (cls : RouteSetClass) (self : Router) (url : string)
    (handler : handler_arg) (accepted_methods : list HttpMethod)
    (default_params : gmap string pyobject) : result Route * RouteSetClass :=
  let nested (r : SimpleRoute) (c : simple_class) :=
    if bool_decide (default_params = ∅) then
      Err (ValueError "for NestedRoute default_params are required")
    else R_Nested <$$> NestedRoute_init url r c accepted_methods default_params in
  let new_route :=
    match handler with
    | A_SimpleRoute r => nested r C_SimpleRoute
    | A_DefaultRoute r => nested r C_DefaultRoute
    | A_Callable h => R_Simple <$$> SimpleRoute_init url h accepted_methods
    | A_NestedRoute _ | A_Other =>
        Err (ValueError "routing not implemented for handler of type")
    end in
  match new_route with
  | Ok r => (Ok r, (RouteSet_add_route cls (routes self) r).2)
  | Err e => (Err e, cls)
  end.

End Routes.

Arguments SimpleRoute : clear implicits.
Arguments NestedRoute : clear implicits.
Arguments Route : clear implicits.
Arguments RouteSetClass : clear implicits.
Arguments RouteSet : clear implicits.
Arguments Router : clear implicits.
Arguments handler_arg : clear implicits.

(** ** A reference run-time

    A concrete [PyRuntime] on which the examples run: CPython's behaviour on
    ASCII input for [int] and [float] (the configurable limit on the number
    of digits of [int] left out, a float kept as the decimal number its
    literal denotes), and [urljoin] on the inputs without scheme,
    parameters, query or fragment that are plain paths, or whose authority
    (what follows a leading [//]) makes [urlsplit] raise ValueError for an
    unmatched square bracket. *)

Module Reference.

(** The decimal digits of a [digitpart]: [digit (["_"] digit)*]; the
    result is the list of digits and the rest of the input. *)
Fixpoint digitpart_from (prev_digit : bool) (s : string) : list nat * string :=
  match s with
  | EmptyString => ([], s)
  | String c s' =>
      match Ascii.is_nat c with
      | Some d => let '(ds, r) := digitpart_from true s' in (d :: ds, r)
      | None =>
          match c, s' with
          | "_"%char, String c' _ =>
              if prev_digit && bool_decide (is_Some (Ascii.is_nat c'))
              then digitpart_from false s' else ([], s)
          | _, _ => ([], s)
          end
      end
  end.

Definition digitpart (s : string) : list nat * string := digitpart_from false s.

Definition digits_value (ds : list nat) : Z :=
  fold_left (λ acc d, 10 * acc + Z.of_nat d)%Z ds 0%Z.

Fixpoint lstrip (s : string) : string :=
  match s with
  | String c s' => if Ascii.is_space c then lstrip s' else s
  | EmptyString => s
  end.

(** An optional sign: the factor it stands for and the rest. *)
Definition sign (s : string) : Z * string :=
  match s with
  | String "+" s' => (1%Z, s')
  | String "-" s' => ((-1)%Z, s')
  | _ => (1%Z, s)
  end.

Definition int_of_str (s : string) : option Z :=
  let '(sg, s1) := sign (lstrip s) in
  let '(ds, s2) := digitpart s1 in
  match ds, lstrip s2 with
  | _ :: _, EmptyString => Some (sg * digits_value ds)%Z
  | _, _ => None
  end.

Inductive float : Type :=
  | F_nan
  | F_inf (negative : bool)
  | F_dec (mantissa exponent : Z).   (* mantissa * 10 ^ exponent *)

Definition lower (c : ascii) : ascii :=
  let n := nat_of_ascii c in
  if bool_decide (65 ≤ n ≤ 90) then ascii_of_nat (n + 32) else c.

Fixpoint lower_str (s : string) : string :=
  match s with
  | EmptyString => EmptyString
  | String c s' => String (lower c) (lower_str s')
  end.

(** [exponent ::= ("e" | "E") [sign] digitpart] *)
Definition exponent (s : string) : option (Z * string) :=
  match s with
  | String c s1 =>
      if bool_decide (lower c = "e"%char) then
        let '(sg, s2) := sign s1 in
        match digitpart s2 with
        | ((_ :: _) as ds, r) => Some ((sg * digits_value ds)%Z, r)
        | _ => None
        end
      else None
  | EmptyString => None
  end.

(** [number ::= [digitpart] "." digitpart | digitpart ["."]] followed by
    an optional exponent and trailing white space. *)
Definition float_number (s : string) : option (Z * Z) :=
  let '(ip, s1) := digitpart s in
  let '(fp, s2) :=
    match s1 with
    | String "." r => digitpart r
    | _ => ([], s1)
    end in
  if bool_decide (ip = [] ∧ fp = []) then None
  else
    let '(e, s3) :=
      match exponent s2 with
      | Some (e, r) => (e, r)
      | None => (0%Z, s2)
      end in
    match lstrip s3 with
    | EmptyString => Some (digits_value (ip ++ fp), (e - Z.of_nat (length fp))%Z)
    | _ => None
    end.

(** The rest of [s] after the prefix [w], when [s] starts with [w]. *)
Fixpoint after_prefix (w s : string) : option string :=
  match w, s with
  | EmptyString, _ => Some s
  | String a w', String b s' => if bool_decide (a = b) then after_prefix w' s' else None
  | String _ _, EmptyString => None
  end.

Definition float_of_str (s : string) : option float :=
  let '(sg, s1) := sign (lstrip s) in
  let word := lower_str s1 in
  let special (w : string) :=
    match after_prefix w word with
    | Some r => bool_decide (lstrip r = "")
    | None => false
    end in
  if special "infinity" || special "inf" then Some (F_inf (bool_decide (sg = (-1)%Z)))
  else if special "nan" then Some F_nan
  else (λ me, F_dec (sg * me.1) me.2) <$> float_number s1.

(** The values a caller puts in [default_params] in the examples. *)
Inductive object : Type :=
  | O_int (z : Z)
  | O_str (s : string).

Definition str (x : object) : string :=
  match x with
  | O_int z => pretty z
  | O_str s => s
  end.

(** [if base_parts[-1] != '': del base_parts[-1]] *)
Definition drop_file_part (base_parts : list string) : list string :=
  match last base_parts with
  | Some "" | None => base_parts
  | Some _ => take (length base_parts - 1) base_parts
  end.

(** [segments[1:-1] = filter(None, segments[1:-1])] *)
Definition filter_inner (segments : list string) : list string :=
  match segments with
  | [] => []
  | x :: rest =>
      match reverse rest with
      | [] => [x]
      | z :: inner => x :: filter (λ seg, seg ≠ "") (reverse inner) ++ [z]
      end
  end.

(** The loop that resolves the [.] and [..] segments. *)
Definition resolve_dots (segments : list string) : list string :=
  fold_left (λ resolved_path seg,
               if bool_decide (seg = "..") then
                 take (length resolved_path - 1) resolved_path
               else if bool_decide (seg = ".") then resolved_path
               else resolved_path ++ [seg]) segments [].

(** [_splitnetloc(url, 2)]: the authority runs to the next [/], [?] or [#]. *)
Fixpoint netloc_from (s : string) : string :=
  match s with
  | EmptyString => EmptyString
  | String c s' =>
      if bool_decide (c = "/"%char ∨ c = "?"%char ∨ c = "#"%char) then EmptyString
      else String c (netloc_from s')
  end.

Definition netloc (url : string) : string :=
  match url with
  | String "/" (String "/" rest) => netloc_from rest
  | _ => EmptyString
  end.

Fixpoint contains (c : ascii) (s : string) : bool :=
  match s with
  | EmptyString => false
  | String c' s' => bool_decide (c' = c) || contains c s'
  end.

(** The test of [urlsplit] that raises [ValueError("Invalid IPv6 URL")]. *)
Definition invalid_ipv6 (url : string) : bool :=
  xorb (contains "["%char (netloc url)) (contains "]"%char (netloc url)).

Definition urljoin (base url : string) : option string :=
  if bool_decide (base = "") then Some url
  else if bool_decide (url = "") then Some base
  else if invalid_ipv6 base || invalid_ipv6 url then None
  else
    let base_parts := drop_file_part (split_slash base) in
    let segments :=
      match url with
      | String "/" _ => split_slash url
      | _ => filter_inner (base_parts ++ split_slash url)
      end in
    let resolved_path := resolve_dots segments in
    let resolved_path :=
      match last segments with
      | Some "." | Some ".." => resolved_path ++ [""]
      | _ => resolved_path
      end in
    match join_slash resolved_path with
    | EmptyString => Some "/"
    | path => Some path
    end.

End Reference.

#[global] Instance reference_runtime : PyRuntime := {|
  pyfloat := Reference.float;
  int_of_str := Reference.int_of_str;
  float_of_str := Reference.float_of_str;
  pyobject := Reference.object;
  py_str := Reference.str;
  urljoin := Reference.urljoin
|}.

(** ** Vocabulary of the statements *)

(** The name under which [parse_url] records the path segment facing the
    template segment [seg]: the group [name] of the match, if any. *)
Definition placeholder_name (seg : string) : option string :=
  snd <$> URL_PARAMS_TYPE_FINDER_match seg.

(** The value [parse_url] leaves under [name] after the pairs [pairs]: the
    path segment of the last pair that differs and whose template segment
    has that name. *)
Fixpoint last_binding (name : string) (pairs : list (string * string)) : option string :=
  match pairs with
  | [] => None
  | (f, r) :: rest =>
      match last_binding name rest with
      | Some v => Some v
      | None =>
          if bool_decide (f ≠ r ∧ placeholder_name f = Some name) then Some r else None
      end
  end.

(** The template syntax of the specification: a segment is a literal
    without [<], or a placeholder [<body>] whose body is not empty and has
    no [<], no [>] and no newline. *)
Fixpoint no_open_bracket (s : string) : bool :=
  match s with
  | EmptyString => true
  | String c s' => negb (bool_decide (c = "<"%char)) && no_open_bracket s'
  end.

Fixpoint body_then_close (seen : bool) (s : string) : bool :=
  match s with
  | EmptyString => false
  | String c s' =>
      if bool_decide (c = ">"%char) then seen && bool_decide (s' = EmptyString)
      else if bool_decide (c = "<"%char) || is_newline c then false
      else body_then_close true s'
  end.

Definition placeholder_syntax (seg : string) : bool :=
  match seg with
  | String "<" rest => body_then_close false rest
  | _ => false
  end.

Definition template_syntax (url : string) : bool :=
  forallb (λ seg, no_open_bracket seg || placeholder_syntax seg) (split_slash url).

Section Vocabulary.
Context `{PyRuntime} {Handler : Type}.

(** Every name [parse_url] can extract for the template of the route has
    a formatter. *)
Definition names_have_formatters (r : SimpleRoute Handler) : bool :=
  forallb (λ seg, match placeholder_name seg with
                  | Some name => bool_decide (is_Some (reqired_url_params r !! name))
                  | None => true
                  end) (split_slash (mapped_url r)).

(** The same for the SimpleRoute that validates for a route. *)
Definition route_names_have_formatters (x : Route Handler) : bool :=
  match x with
  | R_Simple r | R_Default r => names_have_formatters r
  | R_Nested n => names_have_formatters (mapped_route n)
  end.

(** The route a NestedRoute wraps, as an object of its class. *)
Definition wrapped_route (n : NestedRoute Handler) : Route Handler :=
  match mapped_route_class n with
  | C_SimpleRoute => R_Simple (mapped_route n)
  | C_DefaultRoute => R_Default (mapped_route n)
  end.

(** [urljoin] returns a URL for the path handed to the route; a NestedRoute
    is the only route that calls it. *)
Definition url_joins (url : string) (x : Route Handler) : bool :=
  match x with
  | R_Simple _ | R_Default _ => true
  | R_Nested n => bool_decide (is_Some (urljoin (url +:+ "/") (default_url_params_str n)))
  end.

(** [validate_method(verb) and validate_url(path)] is true, is false. *)
Definition both_hold (url : string) (method : HttpMethod) (x : Route Handler) : Prop :=
  validate_method x method = true ∧ validate_url x url = Ok true.

Definition rejects (url : string) (method : HttpMethod) (x : Route Handler) : Prop :=
  validate_method x method = false ∨ validate_url x url = Ok false.

(** The lambda of [get_route] raises nothing on the route: [validate_url]
    returns a boolean when [validate_method] lets it be called. *)
Definition does_not_raise (url : string) (method : HttpMethod) (x : Route Handler) : Prop :=
  validate_method x method = true → ∃ b, validate_url x url = Ok b.

(** [RouteSet.add_route] finds a route equal to [new_route]. *)
Definition has_equal_route (cls : RouteSetClass Handler) (new_route : Route Handler) : Prop :=
  ∃ route, route ∈ all_routes cls
    ∧ Route_mapped_url route = Route_mapped_url new_route
    ∧ Route_accepted_methods route = Route_accepted_methods new_route.

End Vocabulary.

(** ** The decorator [Router.route] and the invariants of the route list *)

Section Decorator.
Context `{PyRuntime} {Handler : Type}.

(** [Router.route(url, accepted_methods, default_params)] returns the
    function [decorate]; [decorate(handler)] is the call of [add_route]. *)
Definition Router_route (self : Router Handler) (url : string)
    (accepted_methods : list HttpMethod) (default_params : gmap string pyobject)
  : handler_arg Handler → RouteSetClass Handler
    → result (Route Handler) * RouteSetClass Handler :=
  λ handler cls, Router_add_route cls self url handler accepted_methods default_params.

(** A route returned by [add_route], passed again as [handler]. *)
Definition route_as_handler (x : Route Handler) : option (handler_arg Handler) :=
  match x with
  | R_Simple r => Some (A_SimpleRoute r)
  | R_Nested r => Some (A_NestedRoute r)
  | R_Default _ => None
  end.

(** The routes [add_route] can put in the list are no DefaultRoutes. *)
Definition is_registered_kind (x : Route Handler) : bool :=
  match x with
  | R_Default _ => false
  | R_Simple _ | R_Nested _ => true
  end.

(** No two routes of the list are equal for [Route.__eq__]. *)
Definition pairwise_distinct (l : list (Route Handler)) : Prop :=
  ∀ i j x y, i < j → l !! i = Some x → l !! j = Some y → Route_eq x y = false.

(** The SimpleRoute that validates and parses for a route. *)
Definition validating_route (x : Route Handler) : SimpleRoute Handler :=
  match x with
  | R_Simple r | R_Default r => r
  | R_Nested n => mapped_route n
  end.

(** The [parse_url] of the route is [DefaultRoute.parse_url], which answers
    [None] for the parameters. *)
Definition parses_to_None (x : Route Handler) : bool :=
  match x with
  | R_Simple _ => false
  | R_Default _ => true
  | R_Nested n => match mapped_route_class n with
                  | C_SimpleRoute => false
                  | C_DefaultRoute => true
                  end
  end.

(** The typed value of an item extracted by the matching function. *)
Definition converted (r : SimpleRoute Handler) (item : string * string)
    (typed : string * pyval) : Prop :=
  item.1 = typed.1
  ∧ ∃ f, reqired_url_params r !! item.1 = Some f ∧ convert f item.2 = Ok typed.2.

End Decorator.

Fixpoint no_newline (s : string) : bool :=
  match s with
  | EmptyString => true
  | String c s' => negb (is_newline c) && no_newline s'
  end.

(** ** Routes and routers of the examples

    They run on the reference run-time; the handlers are named by strings. *)

Definition items_route : SimpleRoute string :=
  mkSimpleRoute "/items/<int:id>" [GET] {["id" := mkFormatter T_int]} "h".

Definition router0 : Router string :=
  mkRouter (RouteSet_init (mkSimpleRoute "" [] ∅ "not_found")).

Definition x_route : SimpleRoute string := mkSimpleRoute "/x" [GET] ∅ "h".

Definition router_A : Router string :=
  mkRouter (RouteSet_init (mkSimpleRoute "" [] ∅ "default of A")).

Definition router_B : Router string :=
  mkRouter (RouteSet_init (mkSimpleRoute "" [] ∅ "default of B")).

Definition bad_route : SimpleRoute string :=
  mkSimpleRoute "/<a>>" [GET] {["a" := mkFormatter T_str]} "bad".

Definition good_route : SimpleRoute string :=
  mkSimpleRoute "/<x>" [GET] {["x" := mkFormatter T_str]} "good".

Definition later_route : SimpleRoute string :=
  mkSimpleRoute "/x" [GET; POST] ∅ "later".

Definition three_routes : RouteSetClass string :=
  mkRouteSetClass [R_Simple items_route; R_Simple x_route; R_Simple later_route].

(** A NestedRoute around [good_route], and one around a DefaultRoute, as
    [add_route] builds them when it is given the route as [handler]. *)
Definition nested_bar : NestedRoute string :=
  mkNestedRoute "/n" [GET] good_route C_SimpleRoute "bar".

Definition default_a : SimpleRoute string :=
  mkSimpleRoute "/a/<x>" [] {["x" := mkFormatter T_str]} "dh".

Definition nested_default : NestedRoute string :=
  mkNestedRoute "/n" [GET] default_a C_DefaultRoute "1".

(** The test code at the end of the module: four registrations on one
    Router (the two decorators apply bottom-up, the upper one receiving the
    SimpleRoute that the lower one returns), then four lookups. *)
Definition main_test_lookups
  : list (result (string * option (odict pyval))) :=
  let c0 := mkRouteSetClass [] in
  let router := mkRouter (RouteSet_init (mkSimpleRoute "" [] ∅ "DEFAULT HANDLER")) in
  let '(_, c1) := Router_add_route c0 router "/test/this/url"
                    (A_Callable "GET /test/this/url") [GET] ∅ in
  let '(_, c2) := Router_add_route c1 router "/test/this/url"
                    (A_Callable "POST /test/this/url") [POST] ∅ in
  let '(oll, c3) := Router_add_route c2 router "/test/<int:this>/<url>"
                      (A_Callable "oll") [GET; POST] ∅ in
  match oll with
  | Ok (R_Simple oll) =>
      let '(_, c4) := Router_add_route c3 router "/test/<int:this>"
                        (A_SimpleRoute oll) [GET; POST]
                        {["url" := Reference.O_str "bar"]} in
      [Router_get_handler c4 router "/test/this/url" GET;
       Router_get_handler c4 router "/test/this/url" POST;
       Router_get_handler c4 router "/test/1/foo" POST;
       Router_get_handler c4 router "/test/1" POST]
  | _ => []
  end.

(** * Properties *)

(** ** The examples of the module's docstrings and its test code *)

Example findall_docstring :
  URL_PARAMS_FINDER_findall "/url/format/<int:name1>/<name2>"
  = ["<int:name1>"; "<name2>"].
Proof. reflexivity. Qed.

Example type_finder_docstring :
  URL_PARAMS_TYPE_FINDER_match "<int:name1>" = Some (Some "int", "name1")
  ∧ URL_PARAMS_TYPE_FINDER_match "<name2>" = Some (None, "name2").
Proof. split; reflexivity. Qed.

Example parse_url_docstring :
  parse_url "/url/format/<int:name1>/<name2>" "/url/format/1/oh_yeah"
  = Ok [("name1", "1"); ("name2", "oh_yeah")]
  ∧ parse_url "/url/format/<int:name1>/<name2>" "/url/format/1"
    = Err (UrlFormatError "len of format url is different from given url").
Proof. split; reflexivity. Qed.

Example required_params_docstring :
  from_url_get_required_params "/url/format/<int:name1>/<name2>"
  = Ok (<["name2" := mkFormatter T_str]> {["name1" := mkFormatter T_int]})
  ∧ from_url_get_required_params_names "/url/format/<int:name1>/<name2>"
    = Ok ["name1"; "name2"].
Proof. split; reflexivity. Qed.

(** The pattern is greedy and anchored at the start of the segment only. *)
Example type_finder_backtracking :
  URL_PARAMS_TYPE_FINDER_match "<a:b:c>" = Some (Some "a:b", "c")
  ∧ URL_PARAMS_TYPE_FINDER_match "<a:>" = Some (None, "a:")
  ∧ URL_PARAMS_TYPE_FINDER_match "<a><b>" = Some (None, "a><b")
  ∧ URL_PARAMS_TYPE_FINDER_match "<x>abc" = Some (None, "x")
  ∧ URL_PARAMS_TYPE_FINDER_match "a<x>" = None
  ∧ URL_PARAMS_TYPE_FINDER_match "<>" = None
  ∧ URL_PARAMS_FINDER_findall "/<a><b>/<>>/<x/y>" = ["<a>"; "<b>"; "<>>"; "<x/y>"].
Proof. repeat split. Qed.

Example main_test_run :
  main_test_lookups
  = [Ok ("GET /test/this/url", Some []);
     Ok ("POST /test/this/url", Some []);
     Ok ("oll", Some [("this", VInt 1); ("url", VStr "foo")]);
     Ok ("oll", Some [("this", VInt 1); ("url", VStr "bar")])].
Proof. reflexivity. Qed.

(** The routes and routers of the examples are values of the constructors. *)
Example example_routes_are_constructed :
  SimpleRoute_init "/items/<int:id>" "h" [GET] = Ok items_route
  ∧ SimpleRoute_init "/x" "h" [GET] = Ok x_route
  ∧ SimpleRoute_init "/x" "later" [GET; POST] = Ok later_route
  ∧ SimpleRoute_init "/<a>>" "bad" [GET] = Ok bad_route
  ∧ SimpleRoute_init "/<x>" "good" [GET] = Ok good_route
  ∧ Router_init "not_found" = Ok router0
  ∧ Router_init "default of A" = Ok router_A
  ∧ Router_init "default of B" = Ok router_B.
Proof. repeat split. Qed.

Example example_nested_routes_are_constructed :
  Router_add_route (mkRouteSetClass []) router0 "/n" (A_SimpleRoute good_route) [GET]
    {["x" := Reference.O_str "bar"]}
  = (Ok (R_Nested nested_bar), mkRouteSetClass [R_Nested nested_bar])
  ∧ DefaultRoute_init "/a/<x>" "dh" = Ok default_a
  ∧ Router_add_route (mkRouteSetClass []) router0 "/n" (A_DefaultRoute default_a) [GET]
      {["x" := Reference.O_int 1]}
    = (Ok (R_Nested nested_default), mkRouteSetClass [R_Nested nested_default]).
Proof. repeat split. Qed.

Example reference_runtime_values :
  map Reference.int_of_str ["42"; " 42 "; "+4_2"; "4__2"; "_4"; "abc"; ""; "-0"; "0x10"]
  = [Some 42; Some 42; Some 42; None; None; None; None; Some 0; None]%Z
  ∧ map (λ p, Reference.urljoin p.1 p.2)
      [("/short/5/", "default"); ("/a/5/", ""); ("/a//b/", "c"); ("/a/b/", "../c");
       ("/a/b/", "/c"); ("a/", ".."); ("//[/", "bar"); ("//[/", "")]
    = [Some "/short/5/default"; Some "/a/5/"; Some "/a/b/c"; Some "/a/c"; Some "/c";
       Some "/"; None; Some "//[/"].
Proof. split; reflexivity. Qed.

(** ** Ordered dictionaries *)

Section DictFacts.
Context {V : Type}.
Implicit Types (d : odict V) (k : string) (v : V).

Lemma dict_get_set_eq k v d : dict_get k (dict_set k v d) = Some v.
Proof.
  induction d as [|[k' v'] d IH]; simpl.
  - by rewrite bool_decide_eq_true_2.
  - case_bool_decide as Hk; simpl.
    + by rewrite bool_decide_eq_true_2.
    + by rewrite bool_decide_eq_false_2.
Qed.

Lemma dict_get_set_ne k k' v d : k ≠ k' → dict_get k' (dict_set k v d) = dict_get k' d.
Proof.
  intros Hne. induction d as [|[k0 v0] d IH]; simpl.
  - by rewrite bool_decide_eq_false_2.
  - case_bool_decide as Hk; simpl.
    + subst k0. by rewrite !bool_decide_eq_false_2.
    + by rewrite IH.
Qed.

Lemma dict_get_elem k v d : dict_get k d = Some v → (k, v) ∈ d.
Proof.
  induction d as [|[k' v'] d IH]; simpl; [done|].
  case_bool_decide as Hk.
  - intros [= ->]. subst. left.
  - intros Hd. right. by apply IH.
Qed.

Lemma dict_set_elem k v d k' v' :
  (k', v') ∈ dict_set k v d → (k' = k ∧ v' = v) ∨ (k', v') ∈ d.
Proof.
  induction d as [|[k0 v0] d IH]; simpl.
  - intros Hin%list_elem_of_singleton. left. by inversion Hin.
  - case_bool_decide as Hk.
    + intros [Hin|Hin]%elem_of_cons; [left; by inversion Hin|].
      right. by right.
    + intros [Hin|Hin]%elem_of_cons; [right; rewrite Hin; left|].
      destruct (IH Hin) as [?|?]; [by left|]. right. by right.
Qed.

End DictFacts.

(** ** The matching function [parse_url] *)

Lemma split_slash_nonempty s : split_slash s ≠ [].
Proof.
  induction s as [|c s IH]; simpl; [done|].
  case_bool_decide; [done|]. by destruct (split_slash s).
Qed.

Lemma last_binding_None name pairs :
  last_binding name pairs = None ↔
  ∀ j f r, pairs !! j = Some (f, r) → f ≠ r → placeholder_name f ≠ Some name.
Proof.
  induction pairs as [|[f0 r0] rest IH]; simpl.
  - split; [|done]. intros _ j f r Hj. by rewrite lookup_nil in Hj.
  - split.
    + destruct (last_binding name rest) eqn:Hrest; [done|].
      case_bool_decide as Hb; [done|]. intros _ [|j] f r Hj Hne Hn; simpl in Hj.
      * inversion Hj; subst. by apply Hb.
      * by eapply (proj1 IH eq_refl j f r).
    + intros Hall. rewrite (proj2 IH).
      * rewrite bool_decide_eq_false_2; [done|].
        intros [Hne Hn]. by apply (Hall 0 f0 r0).
      * intros j f r Hj. by apply (Hall (S j)).
Qed.

Lemma last_binding_Some name pairs v :
  last_binding name pairs = Some v ↔
  ∃ i f, pairs !! i = Some (f, v) ∧ f ≠ v ∧ placeholder_name f = Some name
    ∧ ∀ j f' r', i < j → pairs !! j = Some (f', r') →
        f' ≠ r' → placeholder_name f' ≠ Some name.
Proof.
  induction pairs as [|[f0 r0] rest IH]; simpl.
  - split; [done|]. intros (i & f & Hi & _). by rewrite lookup_nil in Hi.
  - split.
    + destruct (last_binding name rest) eqn:Hrest.
      * intros [= ->]. destruct (proj1 IH eq_refl) as (i & f & Hi & Hne & Hn & Hlater).
        exists (S i), f. repeat split; [done..|].
        intros [|j] f' r' Hlt Hj; [lia|]. apply (Hlater j); [lia|done].
      * case_bool_decide as Hb; [|done]. intros [= ->]. destruct Hb as [Hne Hn].
        exists 0, f0. repeat split; [done..|].
        intros [|j] f' r' Hlt Hj; [lia|]. simpl in Hj.
        by eapply (proj1 (last_binding_None name rest)).
    + intros (i & f & Hi & Hne & Hn & Hlater). destruct i as [|i]; simpl in Hi.
      * inversion Hi; subst. rewrite (proj2 (last_binding_None name rest)).
        -- by rewrite bool_decide_eq_true_2.
        -- intros j f' r' Hj. apply (Hlater (S j)); [lia|done].
      * rewrite (proj2 IH); [done|]. exists i, f. repeat split; [done..|].
        intros j f' r' Hlt Hj. apply (Hlater (S j)); [lia|done].
Qed.

Lemma parse_url_loop_get pairs acc m name :
  parse_url_loop pairs acc = Ok m →
  dict_get name m = match last_binding name pairs with
                    | Some v => Some v
                    | None => dict_get name acc
                    end.
Proof.
  revert acc. induction pairs as [|[f r] rest IH]; intros acc; simpl.
  - by intros [= ->].
  - case_bool_decide as Heq.
    + intros Hm. rewrite (IH _ Hm). destruct (last_binding name rest); [done|].
      rewrite bool_decide_eq_false_2; [done|]. by intros [? _].
    + unfold placeholder_name.
      destruct (URL_PARAMS_TYPE_FINDER_match f) as [[ty n]|]; [|done].
      intros Hm. rewrite (IH _ Hm). destruct (last_binding name rest); [done|].
      simpl. case_bool_decide as Hb.
      * destruct Hb as [_ [= ->]]. apply dict_get_set_eq.
      * apply dict_get_set_ne. intros ->. by apply Hb.
Qed.

Lemma parse_url_loop_ok pairs acc :
  (∃ m, parse_url_loop pairs acc = Ok m) ↔
  Forall (λ p, placeholder_name p.1 = None → p.1 = p.2) pairs.
Proof.
  revert acc. induction pairs as [|[f r] rest IH]; intros acc; simpl.
  - split; [by constructor|eauto].
  - rewrite Forall_cons. simpl. case_bool_decide as Heq.
    + rewrite IH. split; [by intros ?; split|by intros [_ ?]].
    + unfold placeholder_name.
      destruct (URL_PARAMS_TYPE_FINDER_match f) as [[ty n]|]; simpl.
      * rewrite IH. split; [by intros ?; split|by intros [_ ?]].
      * split; [by intros [m ?]|]. intros [Hf _]. by destruct Heq; apply Hf.
Qed.

Lemma parse_url_loop_err pairs acc e :
  parse_url_loop pairs acc = Err e → is_UrlFormatError e = true.
Proof.
  revert acc. induction pairs as [|[f r] rest IH]; intros acc; simpl; [done|].
  case_bool_decide; [by apply IH|].
  destruct (URL_PARAMS_TYPE_FINDER_match f) as [[ty n]|]; [by apply IH|].
  by intros [= <-].
Qed.

Lemma parse_url_err T P e : parse_url T P = Err e → is_UrlFormatError e = true.
Proof.
  unfold parse_url. case_bool_decide; [by intros [= <-]|]. apply parse_url_loop_err.
Qed.

Lemma parse_url_ok_length T P m :
  parse_url T P = Ok m → length (split_slash T) = length (split_slash P).
Proof.
  unfold parse_url. case_bool_decide as Hlen; [done|]. intros _.
  destruct (decide (length (split_slash T) = length (split_slash P))); [done|].
  by destruct Hlen.
Qed.

Lemma parse_url_get T P m name :
  parse_url T P = Ok m →
  dict_get name m = last_binding name (zip (split_slash T) (split_slash P)).
Proof.
  unfold parse_url. case_bool_decide; [done|]. intros Hm.
  rewrite (parse_url_loop_get _ _ _ name Hm). by destruct (last_binding _ _).
Qed.

Lemma lookup_zip_Some {A B} (l : list A) (k : list B) i x y :
  zip l k !! i = Some (x, y) ↔ l !! i = Some x ∧ k !! i = Some y.
Proof.
  rewrite lookup_zip_with_Some. split.
  - by intros (x' & y' & [= -> ->] & ? & ?).
  - intros [? ?]. by exists x, y.
Qed.

Lemma parse_url_ok_iff T P :
  (∃ m, parse_url T P = Ok m) ↔
  length (split_slash T) = length (split_slash P)
  ∧ ∀ i f r, split_slash T !! i = Some f → split_slash P !! i = Some r →
      placeholder_name f = None → f = r.
Proof.
  split.
  - intros [m Hm]. split; [by eapply parse_url_ok_length|]. revert Hm.
    unfold parse_url. case_bool_decide; [done|]. intros Hm i f r Hf Hr.
    assert (∃ m, parse_url_loop (zip (split_slash T) (split_slash P)) [] = Ok m)
      as Hall%parse_url_loop_ok by eauto.
    rewrite Forall_lookup in Hall. apply (Hall i (f, r)). by apply lookup_zip_Some.
  - intros [Hlen Hall]. unfold parse_url.
    rewrite bool_decide_eq_false_2 by (intros Hne; by apply Hne).
    apply parse_url_loop_ok, Forall_lookup.
    intros i [f r] [Hf Hr]%lookup_zip_Some. by apply (Hall i).
Qed.

Lemma parse_url_binding T P m name v :
  parse_url T P = Ok m →
  dict_get name m = Some v ↔
  ∃ i f, split_slash T !! i = Some f ∧ split_slash P !! i = Some v
    ∧ f ≠ v ∧ placeholder_name f = Some name
    ∧ ∀ j f' r', i < j → split_slash T !! j = Some f' →
        split_slash P !! j = Some r' → f' ≠ r' →
        placeholder_name f' ≠ Some name.
Proof.
  intros Hm. rewrite (parse_url_get _ _ _ name Hm), last_binding_Some. split.
  - intros (i & f & [Hf Hr]%lookup_zip_Some & Hne & Hn & Hlater).
    exists i, f. repeat split; [done..|]. intros j f' r' Hlt Hf' Hr'.
    apply (Hlater j); [done|]. by apply lookup_zip_Some.
  - intros (i & f & Hf & Hr & Hne & Hn & Hlater).
    exists i, f. repeat split; [by apply lookup_zip_Some|done..|].
    intros j f' r' Hlt [Hf' Hr']%lookup_zip_Some. by apply (Hlater j).
Qed.

(** C1 (as amended). For a template [T] and a path [P] with the same number
    of [/]-separated segments, [parse_url] succeeds if and only if every
    segment pair whose template segment does not match the placeholder
    pattern is equal; the mapping it returns binds [name] to [v] exactly
    when [v] is the path segment facing a placeholder segment named [name]
    from which it differs, and no later placeholder segment that differs
    from its path segment has the same name. *)
Theorem parse_url_matches_and_binds (T P : string) :
  length (split_slash T) = length (split_slash P) →
  ((∃ m, parse_url T P = Ok m) ↔
     ∀ i f r, split_slash T !! i = Some f → split_slash P !! i = Some r →
       placeholder_name f = None → f = r)
  ∧ ∀ m, parse_url T P = Ok m →
      ∀ name v, dict_get name m = Some v ↔
        ∃ i f, split_slash T !! i = Some f ∧ split_slash P !! i = Some v
          ∧ f ≠ v ∧ placeholder_name f = Some name
          ∧ ∀ j f' r', i < j → split_slash T !! j = Some f' →
              split_slash P !! j = Some r' → f' ≠ r' →
              placeholder_name f' ≠ Some name.
Proof.
  intros Hlen. split.
  - rewrite parse_url_ok_iff. split; [by intros [_ ?]|by split].
  - intros m Hm name v. by apply parse_url_binding.
Qed.

Lemma parse_url_matches_and_binds_witness :
  length (split_slash "/url/format/<int:name1>/<name2>")
    = length (split_slash "/url/format/1/oh_yeah")
  ∧ parse_url "/url/format/<int:name1>/<name2>" "/url/format/1/oh_yeah"
    = Ok [("name1", "1"); ("name2", "oh_yeah")]
  ∧ (dict_get "name2" [("name1", "1"); ("name2", "oh_yeah")] = Some "oh_yeah" ↔
      ∃ i f, split_slash "/url/format/<int:name1>/<name2>" !! i = Some f
        ∧ split_slash "/url/format/1/oh_yeah" !! i = Some "oh_yeah"
        ∧ f ≠ "oh_yeah" ∧ placeholder_name f = Some "name2"
        ∧ ∀ j f' r', i < j →
            split_slash "/url/format/<int:name1>/<name2>" !! j = Some f' →
            split_slash "/url/format/1/oh_yeah" !! j = Some r' → f' ≠ r' →
            placeholder_name f' ≠ Some "name2").
Proof.
  split; [reflexivity|]. split; [reflexivity|].
  apply (proj2 (parse_url_matches_and_binds
                  "/url/format/<int:name1>/<name2>" "/url/format/1/oh_yeah"
                  eq_refl)).
  reflexivity.
Defined.

(** C1 as stated fails: a placeholder segment that is equal to the path's
    segment is skipped, so its name is not bound; and of two placeholders
    with one name only the last keeps its value. *)
Lemma parse_url_binds_counterexample :
  ¬ (∀ T P, length (split_slash T) = length (split_slash P) →
       ∀ m, parse_url T P = Ok m →
         ∀ i f r name, split_slash T !! i = Some f → split_slash P !! i = Some r →
           placeholder_name f = Some name → dict_get name m = Some r).
Proof.
  intros Hclaim.
  specialize (Hclaim "/<x>" "/<x>" eq_refl [] eq_refl 1 "<x>" "<x>" "x"
                eq_refl eq_refl eq_refl).
  discriminate Hclaim.
Qed.

Example parse_url_equal_placeholder_skipped : parse_url "/<x>" "/<x>" = Ok [].
Proof. reflexivity. Qed.

Example parse_url_duplicate_name_last_wins :
  parse_url "/<x>/<x>" "/1/2" = Ok [("x", "2")].
Proof. reflexivity. Qed.

Example parse_url_prefix_placeholder :
  parse_url "/<x>abc" "/foo" = Ok [("x", "foo")].
Proof. reflexivity. Qed.

(** ** Every token of [findall] is matched by the second pattern *)

Lemma first_some_is_Some {A B} (f : A → option B) (l : list A) :
  is_Some (first_some f l) ↔ ∃ a, a ∈ l ∧ is_Some (f a).
Proof.
  induction l as [|a l IH]; simpl.
  - split; [by intros [? ?]|]. intros (a & Hin & _). by apply elem_of_nil in Hin.
  - destruct (f a) eqn:Hfa.
    + split; [|by eauto]. intros _. exists a. split; [left|]. by rewrite Hfa.
    + rewrite IH. split.
      * intros (a' & Hin & Hs). exists a'. split; [by right|done].
      * intros (a' & [->|Hin]%elem_of_cons & Hs).
        -- rewrite Hfa in Hs. by destruct Hs.
        -- by exists a'.
Qed.

Lemma lazy_close_name_close s b c :
  lazy_close s = Some b → is_newline c = false →
  is_Some (match_name_close (String c b)).
Proof.
  revert b c. induction s as [|c' s IH]; intros b c; simpl; [done|].
  unfold match_name_close. case_bool_decide as Hgt.
  - intros [= <-] Hc. apply first_some_is_Some. simpl. rewrite Hc.
    exists (String c EmptyString, ">"). split; [|by eexists].
    right. left.
  - destruct (is_newline c') eqn:Hc'; [done|].
    destruct (lazy_close s) as [b'|] eqn:Hs; [|done]. intros [= <-] Hc.
    destruct (proj1 (first_some_is_Some _ _) (IH b' c' eq_refl Hc'))
      as ([p r] & Hin & Hsome).
    apply first_some_is_Some. exists (String c p, r). split.
    2: { simpl in *. destruct r as [|a r]; [by destruct Hsome|].
         repeat case_match; first [by destruct Hsome | by eexists]. }
    change (dot_plus (String c (String c' b')))
      with (if is_newline c then []
            else map (λ pr, (String c pr.1, pr.2)) (dot_plus (String c' b'))
                   ++ [(String c EmptyString, String c' b')]).
    rewrite Hc. apply elem_of_app. left.
    apply (list_elem_of_fmap_2 (λ pr : string * string, (String c pr.1, pr.2)) _ (p, r) Hin).
Qed.

Lemma finder_token_matches s tok :
  URL_PARAMS_FINDER_match_at s = Some tok →
  is_Some (URL_PARAMS_TYPE_FINDER_match tok).
Proof.
  destruct s as [|a [|c s]]; simpl; [done| |].
  - by repeat case_match.
  - intros Hm.
    assert (a = "<"%char ∧ is_newline c = false
            ∧ ∃ b, lazy_close s = Some b ∧ tok = String "<" (String c b))
      as (-> & Hc & b & Hb & ->).
    { repeat case_match; simplify_eq; try done.
      destruct (lazy_close s) as [b|]; simplify_eq/=. eauto. }
    destruct (lazy_close_name_close _ _ _ Hb Hc) as [n Hn]. simpl.
    destruct (match_type_name_close _) as [[ty n']|]; [done|]. by rewrite Hn.
Qed.

Lemma findall_from_matches k s :
  Forall (λ tok, is_Some (URL_PARAMS_TYPE_FINDER_match tok)) (findall_from k s).
Proof.
  revert k. induction s as [|c s IH]; intros k; [by constructor|].
  destruct k as [|k]; [|apply IH].
  change (findall_from 0 (String c s))
    with (match URL_PARAMS_FINDER_match_at (String c s) with
          | Some tok => tok :: findall_from (String.length tok - 1) s
          | None => findall_from 0 s
          end).
  destruct (URL_PARAMS_FINDER_match_at (String c s)) as [tok|] eqn:Htok; [|apply IH].
  constructor; [by eapply finder_token_matches|apply IH].
Qed.

Lemma required_params_loop_total tokens acc :
  Forall (λ tok, is_Some (URL_PARAMS_TYPE_FINDER_match tok)) tokens →
  ∃ m, required_params_loop tokens acc = Ok m.
Proof.
  intros Hall. revert acc. induction Hall as [|tok tokens [[ty n] Htok] _ IH]; intros acc.
  - by eexists.
  - simpl. rewrite Htok. simpl. apply IH.
Qed.

Lemma required_params_names_loop_total tokens :
  Forall (λ tok, is_Some (URL_PARAMS_TYPE_FINDER_match tok)) tokens →
  ∃ names, required_params_names_loop tokens = Ok names.
Proof.
  induction 1 as [|tok tokens [[ty n] Htok] _ [names IH]].
  - by eexists.
  - simpl. rewrite Htok, IH. simpl. by eexists.
Qed.

Lemma from_url_get_required_params_total url :
  ∃ m, from_url_get_required_params url = Ok m.
Proof. apply required_params_loop_total, findall_from_matches. Qed.

Lemma from_url_get_required_params_names_total url :
  ∃ names, from_url_get_required_params_names url = Ok names.
Proof. apply required_params_names_loop_total, findall_from_matches. Qed.

(** ** Keys of the dictionary returned by [parse_url] *)

Lemma dict_set_keys_NoDup {V} k (v : V) (d : odict V) :
  NoDup d.*1 → NoDup (dict_set k v d).*1.
Proof.
  induction d as [|[k' v'] d IH]; simpl.
  - intros _. apply NoDup_singleton.
  - intros [Hk' Hd]%NoDup_cons. case_bool_decide as Hk; simpl.
    + subst k'. by apply NoDup_cons.
    + apply NoDup_cons. split; [|by apply IH].
      intros ([k0 v0] & -> & Hin)%list_elem_of_fmap.
      destruct (dict_set_elem _ _ _ _ _ Hin) as [[? _]|Hin']; simpl in *; [done|].
      apply Hk'. apply list_elem_of_fmap. by exists (k0, v0).
Qed.

Lemma dict_elem_get {V} k (v : V) (d : odict V) :
  NoDup d.*1 → (k, v) ∈ d → dict_get k d = Some v.
Proof.
  induction d as [|[k' v'] d IH]; simpl.
  - intros _ Hin. by apply elem_of_nil in Hin.
  - intros [Hk' Hd]%NoDup_cons [Heq|Hin]%elem_of_cons.
    + inversion Heq; subst. by rewrite bool_decide_eq_true_2.
    + rewrite bool_decide_eq_false_2; [by apply IH|].
      intros ->. apply Hk'. apply list_elem_of_fmap. by exists (k, v).
Qed.

Lemma parse_url_loop_keys_NoDup pairs acc m :
  parse_url_loop pairs acc = Ok m → NoDup acc.*1 → NoDup m.*1.
Proof.
  revert acc. induction pairs as [|[f r] rest IH]; intros acc; simpl.
  - by intros [= ->].
  - case_bool_decide; [by apply IH|].
    destruct (URL_PARAMS_TYPE_FINDER_match f) as [[ty n]|]; [|done].
    intros Hm Hacc. apply (IH _ Hm). by apply dict_set_keys_NoDup.
Qed.

Lemma parse_url_keys_NoDup T P m : parse_url T P = Ok m → NoDup m.*1.
Proof.
  unfold parse_url. case_bool_decide; [done|]. intros Hm.
  apply (parse_url_loop_keys_NoDup _ _ _ Hm). constructor.
Qed.

Lemma parse_url_items T P m k v :
  parse_url T P = Ok m → (k, v) ∈ m ↔ dict_get k m = Some v.
Proof.
  intros Hm. split; [|apply dict_get_elem].
  apply dict_elem_get. by eapply parse_url_keys_NoDup.
Qed.

Lemma last_binding_name name pairs v :
  last_binding name pairs = Some v →
  ∃ f r, (f, r) ∈ pairs ∧ placeholder_name f = Some name.
Proof.
  intros (i & f & Hi & _ & Hn & _)%last_binding_Some.
  exists f, v. split; [|done]. by eapply list_elem_of_lookup_2.
Qed.

Lemma parse_url_key_is_placeholder T P m k v :
  parse_url T P = Ok m → (k, v) ∈ m →
  ∃ seg, seg ∈ split_slash T ∧ placeholder_name seg = Some k.
Proof.
  intros Hm Hin. apply (parse_url_items _ _ _ _ _ Hm) in Hin.
  rewrite (parse_url_get _ _ _ k Hm) in Hin.
  destruct (last_binding_name _ _ _ Hin) as (f & r & Hfr & Hn).
  exists f. split; [|done].
  apply list_elem_of_lookup in Hfr as [i [Hf _]%lookup_zip_Some].
  by eapply list_elem_of_lookup_2.
Qed.

(** ** Validation and parsing by a route *)

Section RouteFacts.
Context `{PyRuntime} {Handler : Type}.
Implicit Types (r : SimpleRoute Handler) (x : Route Handler) (f : UrlParamFormatter).

Lemma convert_err f value e : convert f value = Err e → is_ValueError e = true.
Proof.
  unfold convert. destruct (converter f); [| |done].
  - destruct (int_of_str value); [done|]. by intros [= <-].
  - destruct (float_of_str value); [done|]. by intros [= <-].
Qed.

(** [is_convertable] never raises. *)
Lemma is_convertable_total f value :
  is_convertable f value = Ok (is_ok (convert f value)).
Proof.
  unfold is_convertable. destruct (convert f value) as [v|e] eqn:He; [done|].
  by rewrite (convert_err _ _ _ He).
Qed.

Lemma all_convertable_true r items :
  all_convertable r items = Ok true ↔
  Forall (λ kv, ∃ f, reqired_url_params r !! kv.1 = Some f
                     ∧ is_convertable f kv.2 = Ok true) items.
Proof.
  induction items as [|[k v] items IH]; simpl.
  - split; [by constructor|done].
  - rewrite Forall_cons. simpl. unfold formatter_of.
    destruct (reqired_url_params r !! k) as [f|]; simpl.
    + rewrite is_convertable_total. simpl. destruct (is_ok (convert f v)) eqn:Hok.
      * rewrite IH. split; [|by intros [_ ?]]. intros Hall. split; [|done].
        exists f. by rewrite is_convertable_total, Hok.
      * split; [done|]. intros [(f' & [= <-] & Hc) _].
        by rewrite is_convertable_total, Hok in Hc.
    + split; [done|]. by intros [(f' & ? & _) _].
Qed.

Lemma all_convertable_total r items :
  Forall (λ kv, is_Some (reqired_url_params r !! kv.1)) items →
  ∃ b, all_convertable r items = Ok b.
Proof.
  induction 1 as [|[k v] items [f Hf] _ [b IH]]; simpl; [by eexists|].
  unfold formatter_of. simpl in Hf. rewrite Hf. simpl.
  rewrite is_convertable_total. simpl. destruct (is_ok (convert f v)); eauto.
Qed.

(** The only exception of [all(...)] is the KeyError of a missing formatter. *)
Lemma all_convertable_err r items e :
  all_convertable r items = Err e →
  ∃ k v, (k, v) ∈ items ∧ reqired_url_params r !! k = None ∧ e = KeyError k.
Proof.
  induction items as [|[k v] items IH]; simpl; [done|]. unfold formatter_of.
  destruct (reqired_url_params r !! k) as [f|] eqn:Hf; simpl.
  - rewrite is_convertable_total. simpl. destruct (is_ok (convert f v)); [|done].
    intros (k' & v' & Hin & Hk' & ->)%IH. exists k', v'. split; [by right|done].
  - intros [= <-]. exists k, v. split; [left|done].
Qed.

Lemma validate_url_true r url :
  SimpleRoute_validate_url r url = Ok true ↔
  ∃ items, parse_url (mapped_url r) url = Ok items
    ∧ ∀ name raw, dict_get name items = Some raw →
        ∃ f, reqired_url_params r !! name = Some f ∧ is_convertable f raw = Ok true.
Proof.
  unfold SimpleRoute_validate_url.
  destruct (parse_url (mapped_url r) url) as [items|e] eqn:Hp; simpl.
  - transitivity (all_convertable r items = Ok true).
    { destruct (all_convertable r items) as [b|e] eqn:Ha; [done|].
      destruct (all_convertable_err _ _ _ Ha) as (k & v & _ & _ & ->). done. }
    rewrite all_convertable_true, Forall_forall. split.
    + intros Hall. exists items. split; [done|]. intros name raw Hget.
      apply (Hall (name, raw)). by apply dict_get_elem.
    + intros (items' & [= <-] & Hall) [k v] Hin. apply Hall.
      by apply (parse_url_items _ _ _ _ _ Hp).
  - rewrite (parse_url_err _ _ _ Hp). split; [done|]. by intros (? & ? & _).
Qed.

Lemma validate_url_err r url e :
  SimpleRoute_validate_url r url = Err e →
  ∃ seg name, seg ∈ split_slash (mapped_url r) ∧ placeholder_name seg = Some name
    ∧ reqired_url_params r !! name = None ∧ e = KeyError name.
Proof.
  unfold SimpleRoute_validate_url.
  destruct (parse_url (mapped_url r) url) as [items|e'] eqn:Hp; simpl.
  - destruct (all_convertable r items) as [b|e'] eqn:Ha; [done|].
    destruct (all_convertable_err _ _ _ Ha) as (k & v & Hin & Hk & ->).
    intros [= <-].
    destruct (parse_url_key_is_placeholder _ _ _ _ _ Hp Hin) as (seg & Hseg & Hn).
    by exists seg, k.
  - by rewrite (parse_url_err _ _ _ Hp).
Qed.

Lemma names_have_formatters_spec r :
  names_have_formatters r = true ↔
  ∀ seg name, seg ∈ split_slash (mapped_url r) →
    placeholder_name seg = Some name → is_Some (reqired_url_params r !! name).
Proof.
  unfold names_have_formatters. rewrite forallb_forall. split.
  - intros Hall seg name Hseg%list_elem_of_In Hn. specialize (Hall seg Hseg).
    rewrite Hn in Hall. by apply bool_decide_eq_true_1 in Hall.
  - intros Hall seg Hseg%list_elem_of_In.
    destruct (placeholder_name seg) as [name|] eqn:Hn; [|done].
    apply bool_decide_eq_true_2. by apply (Hall seg).
Qed.

Lemma validate_url_total r url :
  names_have_formatters r = true → ∃ b, SimpleRoute_validate_url r url = Ok b.
Proof.
  intros Hnames. destruct (SimpleRoute_validate_url r url) as [b|e] eqn:Hv; [by eexists|].
  destruct (validate_url_err _ _ _ Hv) as (seg & name & Hseg & Hn & Hnone & _).
  destruct (proj1 (names_have_formatters_spec r) Hnames seg name Hseg Hn) as [f Hf].
  congruence.
Qed.

Lemma SimpleRoute_init_ok url (h : Handler) ms r :
  SimpleRoute_init url h ms = Ok r →
  mapped_url r = url ∧ accepted_methods r = ms ∧ handler r = h
  ∧ from_url_get_required_params url = Ok (reqired_url_params r).
Proof.
  unfold SimpleRoute_init.
  destruct (from_url_get_required_params url) as [m|e]; simpl; [|done].
  by intros [= <-].
Qed.

Lemma SimpleRoute_init_total url (h : Handler) ms :
  ∃ r, SimpleRoute_init url h ms = Ok r.
Proof.
  unfold SimpleRoute_init.
  destruct (from_url_get_required_params_total url) as [m ->]. by eexists.
Qed.

End RouteFacts.

(** ** Templates in the syntax of the specification

    In such a template the tokens of [findall] are the placeholder
    segments, so that every name the matcher extracts has a formatter. *)

Lemma join_split_slash s : join_slash (split_slash s) = s.
Proof.
  induction s as [|c s IH]; simpl; [done|].
  pose proof (split_slash_nonempty s) as Hne.
  case_bool_decide as Hc.
  - subst c. destruct (split_slash s) as [|seg segs]; [done|].
    simpl in *. by rewrite IH.
  - destruct (split_slash s) as [|seg segs]; [done|].
    destruct segs as [|seg' segs]; simpl in *; by rewrite <-IH.
Qed.

Lemma findall_from_skip p s :
  findall_from (String.length p) (p +:+ s) = findall_from 0 s.
Proof. induction p as [|c p IH]; simpl; [done|]. apply IH. Qed.

Lemma findall_from_unfold c s :
  findall_from 0 (String c s)
  = match URL_PARAMS_FINDER_match_at (String c s) with
    | Some tok => tok :: findall_from (String.length tok - 1) s
    | None => findall_from 0 s
    end.
Proof. done. Qed.

Lemma findall_literal x s :
  no_open_bracket x = true → findall_from 0 (x +:+ s) = findall_from 0 s.
Proof.
  induction x as [|c x IH]; [done|]. intros Hcx. simpl in Hcx.
  apply andb_true_iff in Hcx as [Hc Hx].
  apply negb_true_iff, bool_decide_eq_false_1 in Hc.
  change (String c x +:+ s) with (String c (x +:+ s)).
  rewrite findall_from_unfold.
  assert (URL_PARAMS_FINDER_match_at (String c (x +:+ s)) = None) as ->.
  { unfold URL_PARAMS_FINDER_match_at. by repeat case_match. }
  by apply IH.
Qed.

Lemma lazy_close_body seen b s :
  body_then_close seen b = true → lazy_close (b +:+ s) = Some b.
Proof.
  revert seen. induction b as [|c b IH]; intros seen; simpl; [done|].
  case_bool_decide as Hgt.
  - intros [_ Hb%bool_decide_eq_true_1]%andb_true_iff. by subst.
  - destruct (bool_decide (c = "<"%char) || is_newline c) eqn:Hc; [done|].
    apply orb_false_iff in Hc as [_ ->]. intros Hb. by rewrite (IH _ Hb).
Qed.

Lemma finder_match_at_placeholder x s :
  placeholder_syntax x = true → URL_PARAMS_FINDER_match_at (x +:+ s) = Some x.
Proof.
  destruct x as [|a x]; [done|]. unfold placeholder_syntax.
  destruct (decide (a = "<"%char)) as [->|Hne]; [|by repeat case_match; simplify_eq].
  destruct x as [|c b]; [done|]. simpl.
  case_bool_decide as Hgt; [done|].
  destruct (bool_decide (c = "<"%char) || is_newline c) eqn:Hc; [done|].
  apply orb_false_iff in Hc as [_ ->]. intros Hb.
  by rewrite (lazy_close_body _ _ _ Hb).
Qed.

Lemma findall_placeholder x s :
  placeholder_syntax x = true → findall_from 0 (x +:+ s) = x :: findall_from 0 s.
Proof.
  intros Hx. pose proof (finder_match_at_placeholder x s Hx) as Hm.
  destruct x as [|c x]; [done|].
  change (String c x +:+ s) with (String c (x +:+ s)) in *.
  rewrite findall_from_unfold, Hm.
  change (String.length (String c x) - 1) with (String.length x - 0).
  by rewrite Nat.sub_0_r, findall_from_skip.
Qed.

Lemma join_slash_cons x l :
  join_slash (x :: l)
  = x +:+ match l with [] => "" | _ :: _ => "/" +:+ join_slash l end.
Proof.
  destruct l as [|y l]; simpl; [|done].
  induction x as [|c x IH]; [done|].
  change (String c x +:+ "") with (String c (x +:+ "")). by f_equal.
Qed.

Lemma literal_not_placeholder x :
  no_open_bracket x = true → placeholder_syntax x = false ∧ placeholder_name x = None.
Proof.
  destruct x as [|c x]; [done|]. simpl.
  intros [Hc%negb_true_iff%bool_decide_eq_false_1 _]%andb_true_iff.
  unfold placeholder_name. simpl. by repeat case_match.
Qed.

Lemma findall_join segs :
  Forall (λ seg, no_open_bracket seg || placeholder_syntax seg = true) segs →
  findall_from 0 (join_slash segs) = filter (λ seg, placeholder_syntax seg = true) segs.
Proof.
  induction 1 as [|x l Hx _ IH]; [done|]. rewrite join_slash_cons, filter_cons.
  assert (findall_from 0 match l with [] => "" | _ :: _ => "/" +:+ join_slash l end
          = filter (λ seg, placeholder_syntax seg = true) l) as Htail.
  { destruct l as [|y l]; [done|]. by rewrite (findall_literal "/"). }
  apply orb_true_iff in Hx as [Hx|Hx].
  - rewrite (findall_literal _ _ Hx), Htail.
    destruct (literal_not_placeholder _ Hx) as [Hp _].
    rewrite decide_False; [done|]. by rewrite Hp.
  - rewrite (findall_placeholder _ _ Hx), Htail. by rewrite decide_True.
Qed.

Lemma required_params_loop_keys tokens acc m :
  required_params_loop tokens acc = Ok m →
  (∀ k, is_Some (acc !! k) → is_Some (m !! k))
  ∧ ∀ tok name, tok ∈ tokens → placeholder_name tok = Some name → is_Some (m !! name).
Proof.
  revert acc. induction tokens as [|tok tokens IH]; intros acc; simpl.
  - intros [= ->]. split; [done|]. intros tok name Hin. by apply elem_of_nil in Hin.
  - unfold placeholder_name.
    destruct (URL_PARAMS_TYPE_FINDER_match tok) as [[ty n]|] eqn:Htok; simpl; [|done].
    intros [Hacc Htoks]%IH. split.
    + intros k Hk. apply Hacc. destruct (decide (n = k)) as [->|Hne].
      * rewrite lookup_insert_eq. by eexists.
      * by rewrite lookup_insert_ne.
    + intros tok' name [->|Hin]%elem_of_cons Hname.
      * rewrite Htok in Hname. simpl in Hname. inversion Hname; subst.
        apply Hacc. rewrite lookup_insert_eq. by eexists.
      * by apply (Htoks tok').
Qed.

Section TemplateSyntax.
Context `{PyRuntime} {Handler : Type}.

Lemma template_syntax_names_have_formatters url (h : Handler) ms r :
  template_syntax url = true → SimpleRoute_init url h ms = Ok r →
  names_have_formatters r = true.
Proof.
  intros Hsyn (Hurl & _ & _ & Hreq)%SimpleRoute_init_ok.
  apply names_have_formatters_spec. rewrite Hurl. intros seg name Hseg Hname.
  unfold template_syntax in Hsyn. rewrite forallb_forall in Hsyn.
  pose proof (Hsyn seg (proj1 (list_elem_of_In _ _) Hseg)) as Hs.
  apply orb_true_iff in Hs as [Hs|Hs].
  { destruct (literal_not_placeholder _ Hs) as [_ Hnone]. congruence. }
  unfold from_url_get_required_params, URL_PARAMS_FINDER_findall in Hreq.
  rewrite <-(join_split_slash url) in Hreq at 1. rewrite findall_join in Hreq.
  - apply (proj2 (required_params_loop_keys _ _ _ Hreq) seg); [|done].
    apply list_elem_of_filter. by split.
  - apply Forall_forall. intros x Hx. apply Hsyn, list_elem_of_In, Hx.
Qed.

Lemma NestedRoute_joined_url_Some (n : NestedRoute Handler) url joined :
  urljoin (url +:+ "/") (default_url_params_str n) = Some joined →
  NestedRoute_validate_url n url = SimpleRoute_validate_url (mapped_route n) joined
  ∧ NestedRoute_parse_url n url
    = match mapped_route_class n with
      | C_SimpleRoute => SimpleRoute_parse_url (mapped_route n) joined
      | C_DefaultRoute => DefaultRoute_parse_url (mapped_route n) joined
      end.
Proof.
  intros Hj. unfold NestedRoute_validate_url, NestedRoute_parse_url,
    NestedRoute_joined_url. by rewrite Hj.
Qed.

Lemma NestedRoute_joined_url_None (n : NestedRoute Handler) url :
  urljoin (url +:+ "/") (default_url_params_str n) = None →
  NestedRoute_validate_url n url = Err (ValueError "Invalid IPv6 URL")
  ∧ NestedRoute_parse_url n url = Err (ValueError "Invalid IPv6 URL").
Proof.
  intros Hj. unfold NestedRoute_validate_url, NestedRoute_parse_url,
    NestedRoute_joined_url. by rewrite Hj.
Qed.

Lemma validate_url_route_total (x : Route Handler) url :
  route_names_have_formatters x = true → url_joins url x = true →
  ∃ b, validate_url x url = Ok b.
Proof.
  destruct x as [r|r|n]; simpl; intros Hx Hj; [by apply validate_url_total..|].
  apply bool_decide_eq_true_1 in Hj as [joined Hj].
  rewrite (proj1 (NestedRoute_joined_url_Some _ _ _ Hj)). by apply validate_url_total.
Qed.

End TemplateSyntax.

(** ** Lookup in a RouteSet *)

Section LookupFacts.
Context `{PyRuntime} {Handler : Type}.
Implicit Types (x r : Route Handler) (cls : RouteSetClass Handler).

Lemma route_accepts_true url method x :
  route_accepts url method x = Ok true ↔ both_hold url method x.
Proof.
  unfold route_accepts, both_hold. destruct (validate_method x method).
  - split; [done|by intros [_ ?]].
  - split; [done|by intros [? _]].
Qed.

Lemma route_accepts_false url method x :
  route_accepts url method x = Ok false ↔ rejects url method x.
Proof.
  unfold route_accepts, rejects. destruct (validate_method x method).
  - split; [by right|by intros [?|?]].
  - split; [by left|done].
Qed.

Lemma both_hold_not_rejects url method x :
  both_hold url method x → rejects url method x → False.
Proof. intros [Hm Hu] [Hm'|Hu']; congruence. Qed.

Lemma next_filter_first (pred : Route Handler → result bool) l1 r l2 d :
  Forall (λ x, pred x = Ok false) l1 → pred r = Ok true →
  next_filter pred (l1 ++ r :: l2) d = Ok r.
Proof.
  intros Hl1 Hr. induction Hl1 as [|x l1 Hx _ IH]; simpl.
  - by rewrite Hr.
  - by rewrite Hx.
Qed.

Lemma next_filter_none (pred : Route Handler → result bool) l d :
  Forall (λ x, pred x = Ok false) l → next_filter pred l d = Ok d.
Proof. induction 1 as [|x l Hx _ IH]; simpl; [done|]. by rewrite Hx. Qed.

Lemma next_filter_raise (pred : Route Handler → result bool) l1 r l2 d e :
  Forall (λ x, pred x = Ok false) l1 → pred r = Err e →
  next_filter pred (l1 ++ r :: l2) d = Err e.
Proof.
  intros Hl1 Hr. induction Hl1 as [|x l1 Hx _ IH]; simpl.
  - by rewrite Hr.
  - by rewrite Hx.
Qed.

Lemma next_filter_skip (pred : Route Handler → result bool) l1 r l2 d :
  pred r = Ok false →
  next_filter pred (l1 ++ r :: l2) d = next_filter pred (l1 ++ l2) d.
Proof.
  intros Hr. induction l1 as [|x l1 IH]; simpl.
  - by rewrite Hr.
  - destruct (pred x) as [[]|]; simpl; [done|apply IH|done].
Qed.

(** The three outcomes of the scan. *)
Lemma next_filter_cases (pred : Route Handler → result bool) l d :
  (∃ l1 r l2, l = l1 ++ r :: l2 ∧ Forall (λ x, pred x = Ok false) l1
     ∧ pred r = Ok true ∧ next_filter pred l d = Ok r)
  ∨ (Forall (λ x, pred x = Ok false) l ∧ next_filter pred l d = Ok d)
  ∨ (∃ l1 r l2 e, l = l1 ++ r :: l2 ∧ Forall (λ x, pred x = Ok false) l1
     ∧ pred r = Err e ∧ next_filter pred l d = Err e).
Proof.
  induction l as [|x l IH]; simpl.
  - right. left. by split; [constructor|].
  - destruct (pred x) as [[]|e] eqn:Hx; simpl.
    + left. exists [], x, l. by repeat split; [constructor|..].
    + destruct IH as [(l1 & r & l2 & -> & Hl1 & Hr & Hn)
                     |[[Hl Hn]|(l1 & r & l2 & e & -> & Hl1 & Hr & Hn)]].
      * left. exists (x :: l1), r, l2. by repeat split; [constructor|..].
      * right. left. by split; [constructor|].
      * right. right. exists (x :: l1), r, l2, e. by repeat split; [constructor|..].
    + right. right. exists [], x, l, e. by repeat split; [constructor|..].
Qed.

Lemma Forall_rejects url method (l : list (Route Handler)) :
  Forall (rejects url method) l ↔ Forall (λ x, route_accepts url method x = Ok false) l.
Proof. apply Forall_proper; [|done]. intros x. by rewrite route_accepts_false. Qed.

Lemma get_route_first cls self url method l1 r l2 :
  all_routes cls = l1 ++ r :: l2 → Forall (rejects url method) l1 →
  both_hold url method r → RouteSet_get_route cls self url method = Ok r.
Proof.
  intros Hcls Hl1%Forall_rejects Hr%route_accepts_true.
  unfold RouteSet_get_route. rewrite Hcls. by apply next_filter_first.
Qed.

Lemma get_route_default cls self url method :
  Forall (rejects url method) (all_routes cls) →
  RouteSet_get_route cls self url method = Ok (R_Default (default_route self)).
Proof. intros Hl%Forall_rejects. by apply next_filter_none. Qed.

Lemma get_route_inv cls self url method r :
  RouteSet_get_route cls self url method = Ok r →
  (∃ l1 l2, all_routes cls = l1 ++ r :: l2 ∧ Forall (rejects url method) l1
     ∧ both_hold url method r)
  ∨ (Forall (rejects url method) (all_routes cls)
     ∧ r = R_Default (default_route self)).
Proof.
  unfold RouteSet_get_route. intros Hget.
  destruct (next_filter_cases (route_accepts url method) (all_routes cls)
              (R_Default (default_route self)))
    as [(l1 & r' & l2 & Hl & Hl1 & Hr & Hn)
       |[[Hl Hn]|(l1 & r' & l2 & e & Hl & Hl1 & Hr & Hn)]];
    rewrite Hn in Hget; simplify_eq.
  - left. exists l1, l2. by rewrite Forall_rejects, <-route_accepts_true.
  - right. by rewrite Forall_rejects.
Qed.

Lemma get_route_raises cls self url method e :
  RouteSet_get_route cls self url method = Err e ↔
  ∃ l1 r l2, all_routes cls = l1 ++ r :: l2 ∧ Forall (rejects url method) l1
    ∧ validate_method r method = true ∧ validate_url r url = Err e.
Proof.
  unfold RouteSet_get_route. split.
  - intros Hget.
    destruct (next_filter_cases (route_accepts url method) (all_routes cls)
                (R_Default (default_route self)))
      as [(l1 & r' & l2 & Hl & Hl1 & Hr & Hn)
         |[[Hl Hn]|(l1 & r' & l2 & e' & Hl & Hl1 & Hr & Hn)]];
      rewrite Hn in Hget; simplify_eq.
    exists l1, r', l2. rewrite Forall_rejects. repeat split; [done..| |].
    + unfold route_accepts in Hr. by destruct (validate_method r' method).
    + unfold route_accepts in Hr. by destruct (validate_method r' method).
  - intros (l1 & r & l2 & -> & Hl1%Forall_rejects & Hm & Hu).
    apply next_filter_raise; [done|]. unfold route_accepts. by rewrite Hm.
Qed.

Lemma not_both_hold_rejects url method x :
  (validate_method x method = true → ∃ b, validate_url x url = Ok b) →
  ¬ both_hold url method x ↔ rejects url method x.
Proof.
  intros Hx. split; [|intros Hr Hb; by eapply both_hold_not_rejects].
  intros Hnot. unfold rejects. destruct (validate_method x method) eqn:Hm; [|by left].
  destruct (Hx eq_refl) as [[] Hb]; [|by right]. by destruct Hnot.
Qed.

Lemma rejects_spec url method x :
  rejects url method x ↔ does_not_raise url method x ∧ ¬ both_hold url method x.
Proof.
  split.
  - intros Hr. split; [|intros Hb; by eapply both_hold_not_rejects].
    intros Hm. destruct Hr as [Hr|Hr]; [congruence|by eexists].
  - intros [Hx Hnot]. by apply not_both_hold_rejects.
Qed.

Lemma Forall_rejects_spec url method (l : list (Route Handler)) :
  Forall (rejects url method) l ↔
  Forall (does_not_raise url method) l ∧ Forall (λ x, ¬ both_hold url method x) l.
Proof.
  rewrite <-Forall_and. apply Forall_proper; [|done]. intros x. apply rejects_spec.
Qed.

(** C6 (as amended). In every RouteSet state, for every path and verb,
    [get_route] scans the routes in registration order, only as far as it
    needs. It returns the first route for which [validate_method(verb)] and
    [validate_url(path)] both hold, provided [validate_url] raises for no
    route before it that accepts the verb; it returns the DefaultRoute when
    no registered route satisfies both and none of them raises; it raises
    exactly when, before any route for which both hold, the scan reaches a
    route that accepts the verb and whose [validate_url] raises, and the
    exception is that one. So, when two registered routes both validate the
    path and the verb, the later one is never returned in place of the
    earlier one. *)
Theorem get_route_first_match cls (self : RouteSet Handler) url method :
  (∀ l1 r l2, all_routes cls = l1 ++ r :: l2 →
     Forall (does_not_raise url method) l1 →
     Forall (λ x, ¬ both_hold url method x) l1 → both_hold url method r →
     RouteSet_get_route cls self url method = Ok r)
  ∧ (Forall (does_not_raise url method) (all_routes cls) →
     (∀ x, x ∈ all_routes cls → ¬ both_hold url method x) →
     RouteSet_get_route cls self url method = Ok (R_Default (default_route self)))
  ∧ (∀ e, RouteSet_get_route cls self url method = Err e ↔
       ∃ l1 r l2, all_routes cls = l1 ++ r :: l2
         ∧ Forall (does_not_raise url method) l1
         ∧ Forall (λ x, ¬ both_hold url method x) l1
         ∧ validate_method r method = true ∧ validate_url r url = Err e)
  ∧ (∀ r, RouteSet_get_route cls self url method = Ok r →
       (∃ l1 l2, all_routes cls = l1 ++ r :: l2
          ∧ Forall (does_not_raise url method) l1
          ∧ Forall (λ x, ¬ both_hold url method x) l1 ∧ both_hold url method r)
       ∨ (Forall (does_not_raise url method) (all_routes cls)
          ∧ (∀ x, x ∈ all_routes cls → ¬ both_hold url method x)
          ∧ r = R_Default (default_route self)))
  ∧ (∀ i a r, all_routes cls !! i = Some a → both_hold url method a →
       RouteSet_get_route cls self url method = Ok r →
       ∃ k, k ≤ i ∧ all_routes cls !! k = Some r ∧ both_hold url method r).
Proof.
  split; [|split; [|split; [|split]]].
  - intros l1 r l2 Hl Hno Hl1 Hr. apply (get_route_first _ _ _ _ l1 r l2); [done| |done].
    by apply Forall_rejects_spec.
  - intros Hno Hnone. apply get_route_default, Forall_rejects_spec. split; [done|].
    by apply Forall_forall.
  - intros e. rewrite get_route_raises. split.
    + intros (l1 & r & l2 & Hl & [Hno Hl1]%Forall_rejects_spec & Hm & He).
      by exists l1, r, l2.
    + intros (l1 & r & l2 & Hl & Hno & Hl1 & Hm & He). exists l1, r, l2.
      split; [done|]. split; [by apply Forall_rejects_spec|done].
  - intros r [(l1 & l2 & Hl & [Hno Hl1]%Forall_rejects_spec & Hr)
             |[[Hno Hall]%Forall_rejects_spec ->]]%get_route_inv.
    + left. by exists l1, l2.
    + right. split; [done|]. split; [|done]. by apply Forall_forall.
  - intros i a r Hi Ha [(l1 & l2 & Hl & Hl1 & Hr)|[Hall _]]%get_route_inv.
    + exists (length l1). split; [|split; [|done]].
      * destruct (decide (length l1 ≤ i)) as [|Hgt]; [done|]. exfalso.
        rewrite Hl, lookup_app_l in Hi by lia.
        apply (both_hold_not_rejects url method a Ha).
        rewrite Forall_lookup in Hl1. by apply (Hl1 i).
      * rewrite Hl. by apply list_lookup_middle.
    + exfalso. apply (both_hold_not_rejects url method a Ha).
      rewrite Forall_lookup in Hall. by apply (Hall i).
Qed.

(** No route raises when every name extractable from the templates has a
    formatter and [urljoin] returns a URL for the path and the suffix of
    every NestedRoute. *)
Lemma well_formed_routes_never_raise cls url method :
  Forall (λ x, route_names_have_formatters x = true ∧ url_joins url x = true)
    (all_routes cls) →
  Forall (does_not_raise url method) (all_routes cls).
Proof.
  intros Hall. eapply Forall_impl; [done|].
  intros x [Hx Hj] _. by apply validate_url_route_total.
Qed.

End LookupFacts.

(** ** Registration *)

Section RegistrationFacts.
Context `{PyRuntime} {Handler : Type}.
Implicit Types (x r : Route Handler) (cls : RouteSetClass Handler).

Lemma existsb_Route_eq cls new_route :
  existsb (λ route, Route_eq route new_route) (all_routes cls) = true ↔
  has_equal_route cls new_route.
Proof.
  rewrite existsb_exists. unfold has_equal_route, Route_eq. split.
  - intros (route & Hin%list_elem_of_In & Heq). exists route. split; [done|].
    apply andb_true_iff in Heq as [Hu Hm].
    by apply bool_decide_eq_true_1 in Hu, Hm.
  - intros (route & Hin%list_elem_of_In & Hu & Hm). exists route. split; [done|].
    by rewrite !bool_decide_eq_true_2.
Qed.

Lemma add_route_duplicate cls (self : RouteSet Handler) new_route :
  has_equal_route cls new_route →
  RouteSet_add_route cls self new_route = (false, cls).
Proof.
  intros Heq%existsb_Route_eq. unfold RouteSet_add_route. by rewrite Heq.
Qed.

Lemma add_route_fresh cls (self : RouteSet Handler) new_route :
  ¬ has_equal_route cls new_route →
  RouteSet_add_route cls self new_route
  = (true, mkRouteSetClass (all_routes cls ++ [new_route])).
Proof.
  intros Hne. unfold RouteSet_add_route.
  destruct (existsb _ _) eqn:Hex; [|done]. by apply existsb_Route_eq in Hex.
Qed.

(** C7 (as amended). [RouteSet.add_route] rejects a duplicate: if the list
    already holds a route with the same mapped URL and the same list of
    accepted methods (the same verbs in the same order), the new route is not
    added and the result is false; otherwise it is appended and the result
    is true. *)
Theorem add_route_rejects_duplicate cls (self : RouteSet Handler) new_route :
  (has_equal_route cls new_route →
     RouteSet_add_route cls self new_route = (false, cls))
  ∧ (¬ has_equal_route cls new_route →
     RouteSet_add_route cls self new_route
     = (true, mkRouteSetClass (all_routes cls ++ [new_route]))).
Proof. split; [apply add_route_duplicate|apply add_route_fresh]. Qed.

Lemma NestedRoute_init_total url (s : SimpleRoute Handler) c ms dp :
  ∃ n, NestedRoute_init url s c ms dp = Ok n
    ∧ n_mapped_url n = url ∧ n_accepted_methods n = ms ∧ mapped_route n = s
    ∧ mapped_route_class n = c.
Proof.
  unfold NestedRoute_init.
  destruct (from_url_get_required_params_names_total (mapped_url s)) as [names ->].
  by eexists.
Qed.

Lemma Router_init_value (default_handler : Handler) :
  Router_init default_handler
  = Ok (mkRouter (RouteSet_init (mkSimpleRoute "" [] ∅ default_handler))).
Proof. reflexivity. Qed.

Lemma Router_add_route_result cls (self : Router Handler) url handler ms dp r :
  (Router_add_route cls self url handler ms dp).1 = Ok r →
  Router_add_route cls self url handler ms dp
  = (Ok r, (RouteSet_add_route cls (routes self) r).2).
Proof.
  unfold Router_add_route.
  destruct handler as [s|s|h|n|]; simpl; [| |..|done|done].
  - case_bool_decide; [done|].
    destruct (NestedRoute_init url s _ ms dp); simpl; [|done]. by intros [= <-].
  - case_bool_decide; [done|].
    destruct (NestedRoute_init url s _ ms dp); simpl; [|done]. by intros [= <-].
  - destruct (SimpleRoute_init url h ms); simpl; [|done]. by intros [= <-].
Qed.

Lemma Router_add_route_any_class cls cls2 (self : Router Handler) url handler ms dp :
  (Router_add_route cls self url handler ms dp).1
  = (Router_add_route cls2 self url handler ms dp).1.
Proof.
  unfold Router_add_route.
  destruct handler as [s|s|h|n|]; simpl; [| |..|done|done].
  - case_bool_decide; [done|]. by destruct (NestedRoute_init url s _ ms dp).
  - case_bool_decide; [done|]. by destruct (NestedRoute_init url s _ ms dp).
  - by destruct (SimpleRoute_init url h ms).
Qed.

(** C9. [Router.add_route] fails at registration time, adding no route: with
    a ValueError saying that default_params are required when the handler is
    a SimpleRoute (an instance of the subclass DefaultRoute included) and
    default_params is empty, and with a ValueError saying that routing is
    not implemented when the handler is neither a SimpleRoute nor a
    callable. With a SimpleRoute and non-empty default_params it builds a
    NestedRoute that wraps it; with a callable it builds a SimpleRoute from
    [(url, handler, accepted_methods)]. *)
Theorem add_route_fails_fast cls (self : Router Handler) url ms :
  (∀ s, Router_add_route cls self url (A_SimpleRoute s) ms ∅
        = (Err (ValueError "for NestedRoute default_params are required"), cls))
  ∧ (∀ s, Router_add_route cls self url (A_DefaultRoute s) ms ∅
        = (Err (ValueError "for NestedRoute default_params are required"), cls))
  ∧ (∀ n dp, Router_add_route cls self url (A_NestedRoute n) ms dp
        = (Err (ValueError "routing not implemented for handler of type"), cls))
  ∧ (∀ dp, Router_add_route cls self url A_Other ms dp
        = (Err (ValueError "routing not implemented for handler of type"), cls))
  ∧ (∀ s dp, dp ≠ ∅ →
       ∃ n, NestedRoute_init url s C_SimpleRoute ms dp = Ok n
         ∧ n_mapped_url n = url ∧ n_accepted_methods n = ms ∧ mapped_route n = s
         ∧ (Router_add_route cls self url (A_SimpleRoute s) ms dp).1 = Ok (R_Nested n))
  ∧ (∀ s dp, dp ≠ ∅ →
       ∃ n, NestedRoute_init url s C_DefaultRoute ms dp = Ok n
         ∧ n_mapped_url n = url ∧ n_accepted_methods n = ms ∧ mapped_route n = s
         ∧ (Router_add_route cls self url (A_DefaultRoute s) ms dp).1 = Ok (R_Nested n))
  ∧ (∀ h dp,
       ∃ s, SimpleRoute_init url h ms = Ok s
         ∧ mapped_url s = url ∧ accepted_methods s = ms ∧ handler s = h
         ∧ (Router_add_route cls self url (A_Callable h) ms dp).1 = Ok (R_Simple s)).
Proof.
  repeat split; try done.
  - intros s dp Hdp. destruct (NestedRoute_init_total url s C_SimpleRoute ms dp)
      as (n & Hn & Hu & Hm & Hs & _).
    exists n. repeat split; [done..|]. unfold Router_add_route.
    rewrite bool_decide_eq_false_2 by done. by rewrite Hn.
  - intros s dp Hdp. destruct (NestedRoute_init_total url s C_DefaultRoute ms dp)
      as (n & Hn & Hu & Hm & Hs & _).
    exists n. repeat split; [done..|]. unfold Router_add_route.
    rewrite bool_decide_eq_false_2 by done. by rewrite Hn.
  - intros h dp. destruct (SimpleRoute_init_total url h ms) as [s Hs].
    destruct (SimpleRoute_init_ok _ _ _ _ Hs) as (Hu & Hm & Hh & _).
    exists s. repeat split; [done..|]. unfold Router_add_route. by rewrite Hs.
Qed.

(** C10. [Router.add_route] returns the route it has built whatever
    [RouteSet.add_route] answers: the value returned does not depend on
    the routes already registered, and when an equal route is registered
    the caller receives the new route although the list is left as it was. *)
Theorem add_route_returns_unregistered_route cls (self : Router Handler)
    url handler ms dp r :
  (Router_add_route cls self url handler ms dp).1 = Ok r →
  (∀ cls2, (Router_add_route cls2 self url handler ms dp).1 = Ok r)
  ∧ (has_equal_route cls r →
       (RouteSet_add_route cls (routes self) r).1 = false
       ∧ Router_add_route cls self url handler ms dp = (Ok r, cls))
  ∧ (¬ has_equal_route cls r →
       (RouteSet_add_route cls (routes self) r).1 = true
       ∧ Router_add_route cls self url handler ms dp
         = (Ok r, mkRouteSetClass (all_routes cls ++ [r]))).
Proof.
  intros Hr. split; [|split].
  - intros cls2. by rewrite <-(Router_add_route_any_class cls).
  - intros Heq. rewrite (Router_add_route_result _ _ _ _ _ _ _ Hr).
    by rewrite (add_route_duplicate _ _ _ Heq).
  - intros Hne. rewrite (Router_add_route_result _ _ _ _ _ _ _ Hr).
    by rewrite (add_route_fresh _ _ _ Hne).
Qed.

(** C3 (as amended). The list of routes is one list for all RouteSets: a
    route that [add_route] appends through the Router [A] is at the end of
    the list every Router reads; every Router [B], a freshly constructed one
    included, resolves to it the paths it is the first to accept; and the
    lookups of two Routers differ at most by the DefaultRoute each falls
    back to, which is the only route a RouteSet owns. *)
Theorem routes_shared_by_all_routers cls (A : Router Handler) url handler ms dp r cls' :
  Router_add_route cls A url handler ms dp = (Ok r, cls') →
  ¬ has_equal_route cls r →
  all_routes cls' = all_routes cls ++ [r]
  ∧ (∀ (B : Router Handler) p v, Forall (rejects p v) (all_routes cls) →
       both_hold p v r → RouteSet_get_route cls' (routes B) p v = Ok r)
  ∧ (∀ d p v, Forall (rejects p v) (all_routes cls) → both_hold p v r →
       ∃ C, Router_init d = Ok C ∧ RouteSet_get_route cls' (routes C) p v = Ok r)
  ∧ (∀ (B : Router Handler) p v,
       RouteSet_get_route cls' (routes A) p v = RouteSet_get_route cls' (routes B) p v
       ∨ (RouteSet_get_route cls' (routes A) p v
            = Ok (R_Default (default_route (routes A)))
          ∧ RouteSet_get_route cls' (routes B) p v
            = Ok (R_Default (default_route (routes B))))).
Proof.
  intros Hadd Hne.
  assert (all_routes cls' = all_routes cls ++ [r]) as Hcls'.
  { assert ((Router_add_route cls A url handler ms dp).1 = Ok r) as Hr
      by by rewrite Hadd.
    rewrite (Router_add_route_result _ _ _ _ _ _ _ Hr) in Hadd.
    rewrite (add_route_fresh _ _ _ Hne) in Hadd. by inversion Hadd. }
  split; [done|]. split; [|split].
  - intros B p v Hrej Hr. by apply (get_route_first cls' _ p v (all_routes cls) r []).
  - intros d p v Hrej Hr. unfold Router_init, DefaultRoute_init.
    destruct (SimpleRoute_init_total "" d []) as [s ->]. eexists. split; [done|].
    by apply (get_route_first cls' _ p v (all_routes cls) r []).
  - intros B p v. unfold RouteSet_get_route.
    destruct (next_filter_cases (route_accepts p v) (all_routes cls')
                (R_Default (default_route (routes A))))
      as [(l1 & r' & l2 & Hl & Hl1 & Hr & Hn)
         |[[Hl Hn]|(l1 & r' & l2 & e & Hl & Hl1 & Hr & Hn)]].
    + left. by rewrite Hl, !next_filter_first.
    + right. by rewrite !next_filter_none.
    + left. by rewrite Hl, !(next_filter_raise _ _ _ _ _ e).
Qed.

End RegistrationFacts.

(** ** Validation by a SimpleRoute, and the scenarios of the specification *)

Section Scenarios.
Context `{PyRuntime} {Handler : Type}.
Implicit Types (r : SimpleRoute Handler) (cls : RouteSetClass Handler).

(** C4 (as amended). For a SimpleRoute in which every name the matcher can
    extract has a formatter, and every path: [validate_url] returns a
    boolean without raising; it returns true if and only if the path matches
    the shape of the template (equal segment count, and equal segments
    wherever the template segment is not a placeholder) and every extracted
    raw value is convertible by the formatter bound to its name; and a
    UrlFormatError raised by the matching is turned into false. *)
Theorem validate_url_decides url (h : Handler) ms r path :
  SimpleRoute_init url h ms = Ok r →
  names_have_formatters r = true →
  (∃ b, SimpleRoute_validate_url r path = Ok b)
  ∧ (SimpleRoute_validate_url r path = Ok true ↔
       (length (split_slash url) = length (split_slash path)
        ∧ ∀ i f s, split_slash url !! i = Some f → split_slash path !! i = Some s →
            placeholder_name f = None → f = s)
       ∧ ∀ items name raw, parse_url url path = Ok items →
           dict_get name items = Some raw →
           ∃ f, reqired_url_params r !! name = Some f
                ∧ is_convertable f raw = Ok true)
  ∧ (∀ e, parse_url url path = Err e →
       is_UrlFormatError e = true ∧ SimpleRoute_validate_url r path = Ok false)
  ∧ (length (split_slash url) ≠ length (split_slash path) →
       SimpleRoute_validate_url r path = Ok false).
Proof.
  intros (Hurl & _ & _ & _)%SimpleRoute_init_ok Hnames. split; [|split; [|split]].
  4: { intros Hlen. unfold SimpleRoute_validate_url, parse_url.
       by rewrite Hurl, bool_decide_eq_true_2. }
  - by apply validate_url_total.
  - rewrite validate_url_true, Hurl. split.
    + intros (items & Hp & Hall). split; [apply parse_url_ok_iff; eauto|].
      intros items' name raw Hp'. rewrite Hp in Hp'. inversion Hp'; subst. apply Hall.
    + intros [[items Hp]%parse_url_ok_iff Hall]. exists items. split; [done|].
      intros name raw. by apply Hall.
  - intros e He. split; [by eapply parse_url_err|].
    unfold SimpleRoute_validate_url. rewrite Hurl, He. simpl.
    by rewrite (parse_url_err _ _ _ He).
Qed.

(** C5. After the registration of ["/items/<int:id>"] for GET with the
    handler [h], in a state where no registered route accepts
    [("/items/42", GET)] or equals the new route, [get_handler("/items/42", GET)]
    returns [h] with the mapping of ["id"] to the integer 42; the type tag
    ["int"] selects the integer converter, ["float"] the float converter,
    and any other or absent tag the string converter. *)
Theorem register_then_lookup_int cls (A : Router Handler) (h : Handler) :
  int_of_str "42" = Some 42%Z →
  Forall (rejects "/items/42" GET) (all_routes cls) →
  (∀ x, x ∈ all_routes cls →
     ¬ (Route_mapped_url x = "/items/<int:id>" ∧ Route_accepted_methods x = [GET])) →
  (∃ (x : Route Handler) cls',
     Router_add_route cls A "/items/<int:id>" (A_Callable h) [GET] ∅ = (Ok x, cls')
     ∧ Router_get_handler cls' A "/items/42" GET = Ok (h, Some [("id", VInt 42)]))
  ∧ PARAM_TYPE_MAPPER (Some "int") = T_int
  ∧ PARAM_TYPE_MAPPER (Some "float") = T_float
  ∧ ∀ tag, tag ≠ Some "int" → tag ≠ Some "float" → PARAM_TYPE_MAPPER tag = T_str.
Proof.
  intros Hint Hrej Hnew. split; [|split; [done|split; [done|]]].
  - set (s := mkSimpleRoute "/items/<int:id>" [GET]
                {["id" := mkFormatter T_int]} h).
    assert (SimpleRoute_init "/items/<int:id>" h [GET] = Ok s) as Hs by reflexivity.
    assert (SimpleRoute_validate_url s "/items/42" = Ok true) as Hv.
    { unfold SimpleRoute_validate_url, s. simpl.
      unfold formatter_of, is_convertable, convert. simpl.
      by rewrite lookup_singleton_eq, Hint. }
    exists (R_Simple s), (mkRouteSetClass (all_routes cls ++ [R_Simple s])). split.
    + unfold Router_add_route. rewrite Hs. simpl. rewrite add_route_fresh; [done|].
      intros (x & Hx & Hu & Hm). by apply (Hnew x Hx).
    + unfold Router_get_handler.
      rewrite (get_route_first _ _ _ _ (all_routes cls) (R_Simple s) []); [|done..].
      simpl. unfold SimpleRoute_parse_url, s. simpl.
      unfold formatter_of, convert. simpl. by rewrite lookup_singleton_eq, Hint.
  - intros [tag|] Hi Hf; [|done]. unfold PARAM_TYPE_MAPPER.
    repeat case_match; simplify_eq; done.
Qed.

Lemma get_handler_default cls (A : Router Handler) url method :
  Forall (rejects url method) (all_routes cls) →
  Router_get_handler cls A url method
  = Ok (handler (default_route (routes A)), None).
Proof.
  intros Hrej. unfold Router_get_handler. by rewrite get_route_default.
Qed.

(** C8 (as amended). Let a SimpleRoute, in which every name the matcher can
    extract has a formatter, have a placeholder segment whose name is bound
    to the integer converter, and let the path's segment at that position
    differ from the template's segment and be not convertible to an integer,
    no later placeholder segment that differs from the path rebinding the
    name. Then [validate_url] returns false without raising; the lookup
    passes over the route; when every registered route rejects, the lookup
    ends at the DefaultRoute, whose [parse_url] gives its handler with the
    absent mapping [None]; and that handler is the one last set with
    [set_default_handler]. *)
Theorem unconvertible_value_falls_through url (h : Handler) ms r path
    i seg raw ty name :
  SimpleRoute_init url h ms = Ok r →
  names_have_formatters r = true →
  split_slash url !! i = Some seg →
  split_slash path !! i = Some raw →
  URL_PARAMS_TYPE_FINDER_match seg = Some (ty, name) →
  reqired_url_params r !! name = Some (mkFormatter T_int) →
  seg ≠ raw →
  int_of_str raw = None →
  (∀ j (f' s' : string), i < j → split_slash url !! j = Some f' →
     split_slash path !! j = Some s' → f' ≠ s' → placeholder_name f' ≠ Some name) →
  SimpleRoute_validate_url r path = Ok false
  ∧ (∀ l1 l2 (self : RouteSet Handler) method,
       RouteSet_get_route (mkRouteSetClass (l1 ++ R_Simple r :: l2)) self path method
       = RouteSet_get_route (mkRouteSetClass (l1 ++ l2)) self path method)
  ∧ (∀ cls (A : Router Handler) method,
       Forall (rejects path method) (all_routes cls) →
       RouteSet_get_route cls (routes A) path method
         = Ok (R_Default (default_route (routes A)))
       ∧ Router_get_handler cls A path method
         = Ok (handler (default_route (routes A)), None))
  ∧ (∀ cls (A : Router Handler) method h',
       Forall (rejects path method) (all_routes cls) →
       Router_get_handler cls (Router_set_default_handler A h') path method
       = Ok (h', None)).
Proof.
  intros Hs Hnames Hseg Hraw Hmatch Hfmt Hne Hint Hlater.
  assert (SimpleRoute_validate_url r path = Ok false) as Hv.
  { destruct (validate_url_total r path Hnames) as [[] Hb]; [|done]. exfalso.
    apply validate_url_true in Hb as (items & Hp & Hall).
    destruct (SimpleRoute_init_ok _ _ _ _ Hs) as (Hurl & _). rewrite Hurl in Hp.
    destruct (Hall name raw) as (f & Hf & Hc).
    { apply (parse_url_binding _ _ _ _ _ Hp). exists i, seg.
      repeat split; [done..| |done]. unfold placeholder_name. by rewrite Hmatch. }
    rewrite Hfmt in Hf. inversion Hf; subst f.
    unfold is_convertable, convert in Hc. simpl in Hc. by rewrite Hint in Hc. }
  split; [done|]. split; [|split].
  - intros l1 l2 self method. unfold RouteSet_get_route. simpl.
    apply next_filter_skip. unfold route_accepts. simpl. rewrite Hv.
    by destruct (validate_method _ _).
  - intros cls A method Hrej. split; [by apply get_route_default|].
    by apply get_handler_default.
  - intros cls A method h' Hrej. by rewrite get_handler_default.
Qed.

(** C2 (as amended). A NestedRoute delegates [validate_url] and
    [parse_url] to the route it wraps, on the path
    [urljoin(path + "/", suffix)] where [suffix] is the default-value suffix
    computed at construction (when [urljoin] raises, its ValueError leaves
    both methods); its own template takes no part in the matching. After
    the registration of a SimpleRoute for ["/a/<x>/<y>"] and of a
    NestedRoute at ["/short/<x>"] that wraps it with the default
    parameters [{y: "default"}], the suffix is ["default"]; the lookup of
    ["/short/5"] hands ["/short/5/default"] to the wrapped route, which
    rejects it, and resolves to the DefaultRoute with absent parameters;
    the lookup of ["/a/5"] is accepted by the NestedRoute and resolves to
    what the wrapped route's own [parse_url] gives for ["/a/5/default"]:
    the registered handler with [{x: "5", y: "default"}]. *)
Theorem nested_route_delegates (h d : Handler) (dflt : pyobject) :
  py_str dflt = "default" →
  urljoin "/short/5/" "default" = Some "/short/5/default" →
  urljoin "/a/5/" "default" = Some "/a/5/default" →
  (∀ (n : NestedRoute Handler) p joined,
     urljoin (p +:+ "/") (default_url_params_str n) = Some joined →
     validate_url (R_Nested n) p = validate_url (wrapped_route n) joined
     ∧ Route_parse_url (R_Nested n) p = Route_parse_url (wrapped_route n) joined)
  ∧ (∀ (n : NestedRoute Handler) p,
     urljoin (p +:+ "/") (default_url_params_str n) = None →
     validate_url (R_Nested n) p = Err (ValueError "Invalid IPv6 URL")
     ∧ Route_parse_url (R_Nested n) p = Err (ValueError "Invalid IPv6 URL"))
  ∧ ∃ A s n c1 c2,
      Router_init d = Ok A
      ∧ Router_add_route (mkRouteSetClass []) A "/a/<x>/<y>" (A_Callable h) [GET] ∅
        = (Ok (R_Simple s), c1)
      ∧ Router_add_route c1 A "/short/<x>" (A_SimpleRoute s) [GET] {["y" := dflt]}
        = (Ok (R_Nested n), c2)
      ∧ all_routes c2 = [R_Simple s; R_Nested n]
      ∧ wrapped_route n = R_Simple s
      ∧ default_url_params_str n = "default"
      ∧ validate_url (R_Nested n) "/short/5" = Ok false
      ∧ Router_get_handler c2 A "/short/5" GET = Ok (d, None)
      ∧ RouteSet_get_route c2 (routes A) "/a/5" GET = Ok (R_Nested n)
      ∧ Router_get_handler c2 A "/a/5" GET = SimpleRoute_parse_url s "/a/5/default"
      ∧ SimpleRoute_parse_url s "/a/5/default"
        = Ok (h, Some [("x", VStr "5"); ("y", VStr "default")]).
Proof.
  intros Hstr Hshort Ha. split; [|split].
  { intros n p joined Hj. cbn [validate_url Route_parse_url].
    destruct (NestedRoute_joined_url_Some n p joined Hj) as [-> ->].
    unfold wrapped_route. by destruct (mapped_route_class n). }
  { intros n p Hj. by apply NestedRoute_joined_url_None. }
  set (s := mkSimpleRoute "/a/<x>/<y>" [GET]
              (<["y" := mkFormatter T_str]> {["x" := mkFormatter T_str]}) h).
  set (n := mkNestedRoute "/short/<x>" [GET] s C_SimpleRoute "default").
  assert (SimpleRoute_init "/a/<x>/<y>" h [GET] = Ok s) as Hs by reflexivity.
  assert (NestedRoute_init "/short/<x>" s C_SimpleRoute [GET] {["y" := dflt]} = Ok n)
    as Hn.
  { unfold NestedRoute_init. simpl.
    rewrite lookup_singleton_ne by done. rewrite lookup_singleton_eq. simpl.
    by rewrite Hstr. }
  assert (SimpleRoute_validate_url s "/short/5/default" = Ok false) as Hv1 by reflexivity.
  assert (SimpleRoute_validate_url s "/short/5" = Ok false) as Hv2 by reflexivity.
  assert (SimpleRoute_validate_url s "/a/5" = Ok false) as Hv3 by reflexivity.
  assert (SimpleRoute_parse_url s "/a/5/default"
          = Ok (h, Some [("x", VStr "5"); ("y", VStr "default")])) as Hp.
  { unfold SimpleRoute_parse_url, s. simpl. unfold formatter_of. simpl.
    rewrite lookup_insert_ne by done. rewrite lookup_singleton_eq. simpl.
    by rewrite lookup_insert_eq. }
  assert (SimpleRoute_validate_url s "/a/5/default" = Ok true) as Hv4.
  { unfold SimpleRoute_validate_url, s. simpl. unfold formatter_of. simpl.
    rewrite lookup_insert_ne by done. rewrite lookup_singleton_eq. simpl.
    by rewrite lookup_insert_eq. }
  assert (NestedRoute_validate_url n "/short/5" = Ok false) as Hvn1.
  { unfold NestedRoute_validate_url, NestedRoute_joined_url, n. simpl.
    change ("/short/5" +:+ "/") with "/short/5/". by rewrite Hshort. }
  assert (NestedRoute_validate_url n "/a/5" = Ok true
          ∧ NestedRoute_parse_url n "/a/5" = SimpleRoute_parse_url s "/a/5/default")
    as [Hvn2 Hpn2].
  { unfold NestedRoute_validate_url, NestedRoute_parse_url, NestedRoute_joined_url, n.
    simpl. change ("/a/5" +:+ "/") with "/a/5/". by rewrite Ha. }
  exists (mkRouter (RouteSet_init (mkSimpleRoute "" [] ∅ d))), s, n,
    (mkRouteSetClass [R_Simple s]), (mkRouteSetClass [R_Simple s; R_Nested n]).
  split; [reflexivity|].
  split; [unfold Router_add_route; rewrite Hs; reflexivity|].
  split.
  { unfold Router_add_route.
    rewrite bool_decide_eq_false_2 by apply insert_non_empty.
    rewrite Hn. reflexivity. }
  split; [done|]. split; [done|]. split; [done|]. split; [done|].
  assert (RouteSet_get_route (mkRouteSetClass [R_Simple s; R_Nested n])
            (RouteSet_init (mkSimpleRoute "" [] ∅ d)) "/a/5" GET
          = Ok (R_Nested n)) as Hget.
  { unfold RouteSet_get_route, route_accepts.
    cbn [all_routes next_filter validate_url]. by rewrite Hv3, Hvn2. }
  split.
  { unfold Router_get_handler, RouteSet_get_route, route_accepts.
    cbn [all_routes next_filter validate_url]. by rewrite Hv2, Hvn1. }
  split; [done|]. split; [|done].
  unfold Router_get_handler. cbn [routes]. rewrite Hget. exact Hpn2.
Qed.

End Scenarios.

(** ** The scenarios on the reference run-time *)

Lemma validate_url_decides_witness :
  SimpleRoute_init "/items/<int:id>" "h" [GET] = Ok items_route
  ∧ names_have_formatters items_route = true
  ∧ SimpleRoute_validate_url items_route "/items/42" = Ok true
  ∧ SimpleRoute_validate_url items_route "/items/abc" = Ok false
  ∧ ∃ b, SimpleRoute_validate_url items_route "/items/42/x" = Ok b.
Proof.
  split; [reflexivity|]. split; [reflexivity|].
  split; [reflexivity|]. split; [reflexivity|].
  exact (proj1 (validate_url_decides "/items/<int:id>" "h" [GET] items_route
                  "/items/42/x" eq_refl eq_refl)).
Defined.

(** C4 as stated fails: with the template ["/<a>>"] the matcher extracts
    the name ["a>"], for which the route has no formatter, and the KeyError
    is not caught. *)
Lemma validate_url_raises_counterexample :
  ∃ r : SimpleRoute string,
    SimpleRoute_init "/<a>>" "h" [GET] = Ok r
    ∧ SimpleRoute_validate_url r "/x" = Err (KeyError "a>").
Proof. eexists. split; reflexivity. Qed.

Lemma register_then_lookup_int_witness :
  int_of_str "42" = Some 42%Z
  ∧ ∃ (x : Route string) cls',
      Router_add_route (mkRouteSetClass []) router0 "/items/<int:id>"
        (A_Callable "h") [GET] ∅ = (Ok x, cls')
      ∧ Router_get_handler cls' router0 "/items/42" GET
        = Ok ("h", Some [("id", VInt 42)]).
Proof.
  split; [reflexivity|].
  refine (proj1 (register_then_lookup_int (mkRouteSetClass []) router0 "h"
                   eq_refl _ _)).
  - constructor.
  - intros x Hx. by apply elem_of_nil in Hx.
Defined.

Lemma items_route_no_later_segment (j : nat) (f' s' : string) :
  2 < j → split_slash "/items/<int:id>" !! j = Some f' →
  split_slash "/items/abc" !! j = Some s' → f' ≠ s' →
  placeholder_name f' ≠ Some "id".
Proof. intros Hlt Hf. by destruct j as [|[|[|j]]]; try lia. Defined.

Lemma unconvertible_value_falls_through_witness :
  SimpleRoute_init "/items/<int:id>" "h" [GET] = Ok items_route
  ∧ int_of_str "abc" = None
  ∧ SimpleRoute_validate_url items_route "/items/abc" = Ok false
  ∧ Router_get_handler (mkRouteSetClass [R_Simple items_route]) router0
      "/items/abc" GET = Ok ("not_found", None)
  ∧ Router_get_handler (mkRouteSetClass [R_Simple items_route])
      (Router_set_default_handler router0 "custom") "/items/abc" GET
    = Ok ("custom", None).
Proof.
  pose proof (unconvertible_value_falls_through "/items/<int:id>" "h" [GET]
                items_route "/items/abc" 2 "<int:id>" "abc" (Some "int") "id"
                eq_refl eq_refl eq_refl eq_refl eq_refl eq_refl
                ltac:(discriminate) eq_refl items_route_no_later_segment)
    as (Hv & Hskip & Hdefault & Hset).
  split; [reflexivity|]. split; [reflexivity|]. split; [exact Hv|].
  assert (Forall (rejects "/items/abc" GET)
            (all_routes (mkRouteSetClass [R_Simple items_route]))) as Hrej.
  { constructor; [by right|constructor]. }
  split; [apply (Hdefault _ router0 GET Hrej)|apply (Hset _ router0 GET "custom" Hrej)].
Defined.

(** C8 as stated fails: the path segment ["<int:id>"] is not convertible to
    an integer, but it is equal to the template's segment, so that the
    matcher skips the pair: the route validates the path, and the lookup
    returns its handler with an empty mapping instead of the DefaultRoute;
    and of two placeholders named alike only the last one's value is
    checked. *)
Lemma unconvertible_value_counterexample :
  int_of_str "<int:id>" = None
  ∧ split_slash "/items/<int:id>" !! 2 = Some "<int:id>"
  ∧ URL_PARAMS_TYPE_FINDER_match "<int:id>" = Some (Some "int", "id")
  ∧ SimpleRoute_validate_url items_route "/items/<int:id>" = Ok true
  ∧ Router_get_handler (mkRouteSetClass [R_Simple items_route]) router0
      "/items/<int:id>" GET = Ok ("h", Some [])
  ∧ ∃ r : SimpleRoute string,
      SimpleRoute_init "/<int:id>/<int:id>" "h" [GET] = Ok r
      ∧ int_of_str "abc" = None
      ∧ SimpleRoute_validate_url r "/abc/5" = Ok true.
Proof. repeat split. eexists. repeat split. Qed.

Lemma nested_route_delegates_witness :
  py_str (Reference.O_str "default") = "default"
  ∧ urljoin "/short/5/" "default" = Some "/short/5/default"
  ∧ urljoin "/a/5/" "default" = Some "/a/5/default"
  ∧ ∃ (A : Router string) s n c1 c2,
      Router_init "not_found" = Ok A
      ∧ Router_add_route (mkRouteSetClass []) A "/a/<x>/<y>" (A_Callable "h") [GET] ∅
        = (Ok (R_Simple s), c1)
      ∧ Router_add_route c1 A "/short/<x>" (A_SimpleRoute s) [GET]
          {["y" := Reference.O_str "default"]}
        = (Ok (R_Nested n), c2)
      ∧ all_routes c2 = [R_Simple s; R_Nested n]
      ∧ wrapped_route n = R_Simple s
      ∧ default_url_params_str n = "default"
      ∧ validate_url (R_Nested n) "/short/5" = Ok false
      ∧ Router_get_handler c2 A "/short/5" GET = Ok ("not_found", None)
      ∧ RouteSet_get_route c2 (routes A) "/a/5" GET = Ok (R_Nested n)
      ∧ Router_get_handler c2 A "/a/5" GET = SimpleRoute_parse_url s "/a/5/default"
      ∧ SimpleRoute_parse_url s "/a/5/default"
        = Ok ("h", Some [("x", VStr "5"); ("y", VStr "default")]).
Proof.
  split; [reflexivity|]. split; [reflexivity|]. split; [reflexivity|].
  exact (proj2 (proj2 (nested_route_delegates "h" "not_found"
                         (Reference.O_str "default") eq_refl eq_refl eq_refl))).
Defined.

(** C2 as stated fails: ["/short/5"] resolves to the DefaultRoute with
    absent parameters, not to the handler of ["/a/5/default"]. *)
Lemma nested_short_path_counterexample :
  ∃ (s : SimpleRoute string) c1 (x : Route string) c2,
    Router_add_route (mkRouteSetClass []) router0 "/a/<x>/<y>" (A_Callable "h")
      [GET] ∅ = (Ok (R_Simple s), c1)
    ∧ Router_add_route c1 router0 "/short/<x>" (A_SimpleRoute s) [GET]
        {["y" := Reference.O_str "default"]} = (Ok x, c2)
    ∧ Router_get_handler c2 router0 "/short/5" GET = Ok ("not_found", None)
    ∧ urljoin "/short/5/" "default" = Some "/short/5/default"
    ∧ SimpleRoute_parse_url s "/short/5/default"
      = Err (UrlFormatError
               "part of the path of the url was different and wasn't a param")
    ∧ SimpleRoute_parse_url s "/a/5/default"
      = Ok ("h", Some [("x", VStr "5"); ("y", VStr "default")])
    ∧ Router_get_handler c2 router0 "/a/5/default" GET
      = Ok ("h", Some [("x", VStr "5"); ("y", VStr "default")]).
Proof. do 4 eexists. repeat split. Qed.

Lemma no_equal_route_in_empty_class (r : Route string) :
  ¬ has_equal_route (mkRouteSetClass []) r.
Proof. intros (x & Hx & _). by apply elem_of_nil in Hx. Defined.

Lemma routes_shared_by_all_routers_witness :
  Router_add_route (mkRouteSetClass []) router_A "/x" (A_Callable "h") [GET] ∅
    = (Ok (R_Simple x_route), mkRouteSetClass [R_Simple x_route])
  ∧ RouteSet_get_route (mkRouteSetClass [R_Simple x_route]) (routes router_B) "/x" GET
    = Ok (R_Simple x_route)
  ∧ ∃ C, Router_init "default of C" = Ok C
      ∧ RouteSet_get_route (mkRouteSetClass [R_Simple x_route]) (routes C) "/x" GET
        = Ok (R_Simple x_route).
Proof.
  pose proof (routes_shared_by_all_routers (mkRouteSetClass []) router_A "/x"
                (A_Callable "h") [GET] ∅ (R_Simple x_route)
                (mkRouteSetClass [R_Simple x_route]) eq_refl
                (no_equal_route_in_empty_class _))
    as (_ & HB & HC & _).
  split; [reflexivity|]. split.
  - apply HB; [constructor|by split].
  - apply HC; [constructor|by split].
Defined.

(** C3 as stated fails: the route registered through the Router [A]
    changes what the Router [B] answers, and a Router constructed afterwards
    starts with that route. *)
Lemma routers_share_routes_counterexample :
  Router_init "default of A" = Ok router_A
  ∧ Router_init "default of B" = Ok router_B
  ∧ Router_get_handler (mkRouteSetClass []) router_B "/x" GET
    = Ok ("default of B", None)
  ∧ ∃ c1,
      Router_add_route (mkRouteSetClass []) router_A "/x" (A_Callable "h") [GET] ∅
        = (Ok (R_Simple x_route), c1)
      ∧ Router_get_handler c1 router_B "/x" GET = Ok ("h", Some [])
      ∧ ∃ C, Router_init "default of C" = Ok C
          ∧ all_routes c1 = [R_Simple x_route]
          ∧ Router_get_handler c1 C "/x" GET = Ok ("h", Some []).
Proof. repeat split. eexists. repeat split. eexists. repeat split. Qed.

Lemma add_route_returns_unregistered_route_witness :
  (Router_add_route (mkRouteSetClass [R_Simple x_route]) router_A "/x"
     (A_Callable "other") [GET] ∅).1
    = Ok (R_Simple (mkSimpleRoute "/x" [GET] ∅ "other"))
  ∧ has_equal_route (mkRouteSetClass [R_Simple x_route])
      (R_Simple (mkSimpleRoute "/x" [GET] ∅ "other"))
  ∧ Router_add_route (mkRouteSetClass [R_Simple x_route]) router_A "/x"
      (A_Callable "other") [GET] ∅
    = (Ok (R_Simple (mkSimpleRoute "/x" [GET] ∅ "other")),
       mkRouteSetClass [R_Simple x_route]).
Proof.
  assert (has_equal_route (mkRouteSetClass [R_Simple x_route])
            (R_Simple (mkSimpleRoute "/x" [GET] ∅ "other"))) as Heq.
  { exists (R_Simple x_route). split; [left|by split]. }
  split; [reflexivity|]. split; [exact Heq|].
  exact (proj2 (proj1 (proj2 (add_route_returns_unregistered_route
                                (mkRouteSetClass [R_Simple x_route]) router_A "/x"
                                (A_Callable "other") [GET] ∅ _ eq_refl)) Heq)).
Defined.

Lemma three_routes_never_raise (url : string) (method : HttpMethod) :
  Forall (does_not_raise url method) (all_routes three_routes).
Proof.
  apply well_formed_routes_never_raise. by repeat constructor.
Defined.

Lemma get_route_first_match_witness :
  both_hold "/x" GET (R_Simple x_route)
  ∧ both_hold "/x" GET (R_Simple later_route)
  ∧ RouteSet_get_route three_routes (routes router0) "/x" GET
    = Ok (R_Simple x_route)
  ∧ RouteSet_get_route three_routes (routes router0) "/y" GET
    = Ok (R_Default (default_route (routes router0))).
Proof.
  split; [by split|]. split; [by split|]. split.
  - apply (proj1 (get_route_first_match three_routes (routes router0) "/x" GET)
             [R_Simple items_route] (R_Simple x_route) [R_Simple later_route]
             eq_refl).
    + constructor; [|constructor]. intros _. by eexists.
    + constructor; [|constructor]. by intros [_ ?].
    + by split.
  - apply (proj1 (proj2 (get_route_first_match three_routes (routes router0)
                           "/y" GET)) (three_routes_never_raise "/y" GET)).
    intros x Hx [_ Hv]. simpl in Hx.
    repeat (apply elem_of_cons in Hx as [->|Hx]); try discriminate Hv.
    by apply elem_of_nil in Hx.
Defined.

(** C6 as stated fails: the first registered route raises a KeyError on
    the path, and [get_route] returns neither the second route, for which
    both validations hold, nor the DefaultRoute when it is alone. *)
Lemma get_route_raises_counterexample :
  SimpleRoute_init "/<a>>" "bad" [GET] = Ok bad_route
  ∧ SimpleRoute_init "/<x>" "good" [GET] = Ok good_route
  ∧ ¬ both_hold "/v" GET (R_Simple bad_route)
  ∧ both_hold "/v" GET (R_Simple good_route)
  ∧ RouteSet_get_route (mkRouteSetClass [R_Simple bad_route; R_Simple good_route])
      (routes router0) "/v" GET = Err (KeyError "a>")
  ∧ RouteSet_get_route (mkRouteSetClass [R_Simple bad_route])
      (routes router0) "/v" GET = Err (KeyError "a>").
Proof.
  split; [reflexivity|]. split; [reflexivity|].
  split; [by intros [_ ?]|]. split; [by split|]. by split.
Qed.

Lemma add_route_rejects_duplicate_witness :
  RouteSet_add_route (mkRouteSetClass [R_Simple x_route]) (routes router0)
    (R_Simple (mkSimpleRoute "/x" [GET] ∅ "other"))
  = (false, mkRouteSetClass [R_Simple x_route])
  ∧ RouteSet_add_route (mkRouteSetClass [R_Simple x_route]) (routes router0)
      (R_Simple items_route)
    = (true, mkRouteSetClass [R_Simple x_route; R_Simple items_route]).
Proof.
  split.
  - apply (proj1 (add_route_rejects_duplicate _ (routes router0) _)).
    exists (R_Simple x_route). split; [left|by split].
  - apply (proj2 (add_route_rejects_duplicate
                    (mkRouteSetClass [R_Simple x_route]) (routes router0)
                    (R_Simple items_route))).
    intros (x & ->%list_elem_of_singleton & Hu & _). discriminate Hu.
Defined.

(** C7 as stated fails: equality of the accepted methods is equality of
    lists. A route with the same URL and the same verbs listed in another
    order is appended, and the result is true. *)
Lemma add_route_method_order_counterexample :
  ∃ r1 r2 : SimpleRoute string,
    SimpleRoute_init "/a" "first" [GET; POST] = Ok r1
    ∧ SimpleRoute_init "/a" "second" [POST; GET] = Ok r2
    ∧ mapped_url r1 = mapped_url r2
    ∧ (∀ verb, verb ∈ accepted_methods r1 ↔ verb ∈ accepted_methods r2)
    ∧ RouteSet_add_route (mkRouteSetClass [R_Simple r1]) (routes router0) (R_Simple r2)
      = (true, mkRouteSetClass [R_Simple r1; R_Simple r2]).
Proof.
  do 2 eexists. split; [reflexivity|]. split; [reflexivity|].
  split; [reflexivity|]. split; [|reflexivity].
  intros verb. simpl. rewrite !elem_of_cons, !elem_of_nil. tauto.
Qed.

Lemma add_route_fails_fast_witness :
  Router_add_route (mkRouteSetClass []) router0 "/short" (A_SimpleRoute x_route)
    [GET] ∅
  = (Err (ValueError "for NestedRoute default_params are required"),
     mkRouteSetClass [])
  ∧ ∃ n, NestedRoute_init "/short" x_route C_SimpleRoute [GET]
           {["y" := Reference.O_int 7]} = Ok n
      ∧ n_mapped_url n = "/short" ∧ n_accepted_methods n = [GET]
      ∧ mapped_route n = x_route
      ∧ (Router_add_route (mkRouteSetClass []) router0 "/short"
           (A_SimpleRoute x_route) [GET] {["y" := Reference.O_int 7]}).1
        = Ok (R_Nested n).
Proof.
  pose proof (add_route_fails_fast (mkRouteSetClass []) router0 "/short" [GET])
    as (Hempty & _ & _ & _ & Hnested & _).
  split; [apply Hempty|]. apply Hnested. apply insert_non_empty.
Defined.

(** * Further properties of the module *)

(** ** The formatters ([UrlParamFormatter], lines 32-46) *)

Section FormatterFacts.
Context `{PyRuntime}.

(** X5. [is_convertable] never raises and answers true exactly when
    [convert] returns a value; [convert] raises nothing but ValueError, and
    the string converter returns every value unchanged. *)
Theorem is_convertable_agrees_with_convert (f : UrlParamFormatter) (value : string) :
  (∃ b, is_convertable f value = Ok b ∧ (b = true ↔ ∃ v, convert f value = Ok v))
  ∧ (∀ e, convert f value = Err e → is_ValueError e = true)
  ∧ (converter f = T_str →
       convert f value = Ok (VStr value) ∧ is_convertable f value = Ok true).
Proof.
  split; [|split].
  - exists (is_ok (convert f value)). split; [apply is_convertable_total|].
    destruct (convert f value) as [v|e]; simpl.
    + split; [by eexists|done].
    + split; [done|]. by intros [v ?].
  - apply convert_err.
  - intros Hf. unfold is_convertable, convert. by rewrite Hf.
Qed.

End FormatterFacts.

(** ** The text matched by [_URL_PARAMS_TYPE_FINDER] (line 14) *)

Lemma first_some_Some {A B} (f : A → option B) (l : list A) b :
  first_some f l = Some b → ∃ a, a ∈ l ∧ f a = Some b.
Proof.
  induction l as [|a l IH]; simpl; [done|].
  destruct (f a) as [b'|] eqn:Hfa.
  - intros [= ->]. exists a. split; [left|done].
  - intros (a' & Hin & Ha')%IH. exists a'. split; [by right|done].
Qed.

Lemma dot_plus_elem s p r :
  (p, r) ∈ dot_plus s → s = p +:+ r ∧ p ≠ "" ∧ no_newline p = true.
Proof.
  revert p r. induction s as [|c s IH]; intros p r; simpl.
  - intros Hin. by apply elem_of_nil in Hin.
  - destruct (is_newline c) eqn:Hc; [intros Hin; by apply elem_of_nil in Hin|].
    intros [Hin|Hin]%elem_of_app.
    + apply list_elem_of_fmap in Hin as ([p' r'] & [= -> ->] & Hin'). simpl.
      destruct (IH _ _ Hin') as (-> & _ & Hnl). split; [done|]. split; [done|].
      simpl. by rewrite Hc.
    + apply list_elem_of_singleton in Hin as [= -> ->]. split; [done|]. split; [done|].
      simpl. by rewrite Hc.
Qed.

Lemma match_name_close_Some s n :
  match_name_close s = Some n →
  ∃ rest, s = n +:+ ">" +:+ rest ∧ n ≠ "" ∧ no_newline n = true.
Proof.
  unfold match_name_close. intros ([p r] & Hin & Hf)%first_some_Some. simpl in Hf.
  destruct (dot_plus_elem _ _ _ Hin) as (-> & Hp & Hnl).
  destruct r as [|c r]; [done|].
  destruct (decide (c = ">"%char)) as [->|Hc].
  - inversion Hf; subst. by exists r.
  - exfalso. by repeat case_match.
Qed.

(** X3. When [_URL_PARAMS_TYPE_FINDER.match] succeeds on a segment, the
    segment starts with the text [<name>] or [<type:name>] made of the two
    groups; the name, and the type when it is present, are not empty and
    hold no newline. A match that fails leaves no name. *)
Theorem type_finder_groups_spell_the_prefix (s : string) :
  match URL_PARAMS_TYPE_FINDER_match s with
  | Some (Some ty, name) =>
      (∃ rest, s = "<" +:+ ty +:+ ":" +:+ name +:+ ">" +:+ rest)
      ∧ ty ≠ "" ∧ no_newline ty = true ∧ name ≠ "" ∧ no_newline name = true
  | Some (None, name) =>
      (∃ rest, s = "<" +:+ name +:+ ">" +:+ rest)
      ∧ name ≠ "" ∧ no_newline name = true
  | None => placeholder_name s = None
  end.
Proof.
  unfold placeholder_name.
  destruct (URL_PARAMS_TYPE_FINDER_match s) as [[[ty|] name]|] eqn:Hm; [| |done].
  - unfold URL_PARAMS_TYPE_FINDER_match in Hm.
    destruct s as [|c t]; [done|].
    destruct (decide (c = "<"%char)) as [->|Hc]; [|exfalso; by repeat case_match].
    destruct (match_type_name_close t) as [[ty' n']|] eqn:Ht.
    + inversion Hm; subst. unfold match_type_name_close in Ht.
      apply first_some_Some in Ht as ([p r] & Hin & Hf). simpl in Hf.
      destruct (dot_plus_elem _ _ _ Hin) as (-> & Hp & Hnl).
      destruct r as [|c r]; [done|].
      destruct (decide (c = ":"%char)) as [->|Hc]; [|exfalso; by repeat case_match].
      destruct (match_name_close r) as [n|] eqn:Hn; [|done].
      simpl in Hf. inversion Hf; subst.
      apply match_name_close_Some in Hn as (rest & -> & Hne & Hnl').
      split; [by exists rest|done].
    + by destruct (match_name_close t).
  - unfold URL_PARAMS_TYPE_FINDER_match in Hm.
    destruct s as [|c t]; [done|].
    destruct (decide (c = "<"%char)) as [->|Hc]; [|exfalso; by repeat case_match].
    destruct (match_type_name_close t) as [[ty' n']|] eqn:Ht; [done|].
    destruct (match_name_close t) as [n|] eqn:Hn; [|done].
    inversion Hm; subst.
    apply match_name_close_Some in Hn as (rest & -> & Hne & Hnl').
    split; [by exists rest|done].
Qed.

(** ** The formatter table and the names generator (lines 73-96) *)

Lemma required_params_loops_agree tokens acc :
  Forall (λ tok, is_Some (URL_PARAMS_TYPE_FINDER_match tok)) tokens →
  ∃ m names,
    required_params_loop tokens acc = Ok m
    ∧ required_params_names_loop tokens = Ok names
    ∧ length names = length tokens
    ∧ (∀ n, is_Some (m !! n) ↔ is_Some (acc !! n) ∨ n ∈ names)
    ∧ (∀ n f, m !! n = Some f →
         acc !! n = Some f
         ∨ ∃ tok ty, tok ∈ tokens ∧ URL_PARAMS_TYPE_FINDER_match tok = Some (ty, n)
             ∧ converter f = PARAM_TYPE_MAPPER ty).
Proof.
  intros Hall. revert acc.
  induction Hall as [|tok tokens [[ty n] Htok] _ IH]; intros acc.
  - exists acc, []. repeat split; try done.
    + intros Hn. by left.
    + intros [?|Hin]; [done|]. by apply elem_of_nil in Hin.
    + intros n f Hf. by left.
  - destruct (IH (<[n := mkFormatter (PARAM_TYPE_MAPPER ty)]> acc))
      as (m & names & Hm & Hnames & Hlen & Hkeys & Hconv).
    exists m, (n :: names). simpl. rewrite Htok. simpl. rewrite Hm, Hnames. simpl.
    repeat split; [by rewrite Hlen| | |].
    + intros [Hacc|Hin]%Hkeys; [|right; by right].
      destruct (decide (n = n0)) as [->|Hne]; [right; left|].
      left. by rewrite lookup_insert_ne in Hacc.
    + intros [Hacc|[->|Hin]%elem_of_cons]; apply Hkeys.
      * left. destruct (decide (n = n0)) as [->|Hne].
        -- rewrite lookup_insert_eq. by eexists.
        -- by rewrite lookup_insert_ne.
      * left. rewrite lookup_insert_eq. by eexists.
      * by right.
    + intros n0 f [Hacc|(tok' & ty' & Hin & Ht & Hc)]%Hconv.
      * destruct (decide (n = n0)) as [->|Hne].
        -- rewrite lookup_insert_eq in Hacc. inversion Hacc; subst.
           right. exists tok, ty. split; [left|done].
        -- rewrite lookup_insert_ne in Hacc by done. by left.
      * right. exists tok', ty'. split; [by right|done].
Qed.

(** X1. [from_url_get_required_params] and the generator
    [from_url_get_required_params_names] never raise, whatever the template
    ([param] is never [None]): there is one name for each token of
    [findall], the keys of the formatter table are exactly the names, and
    the converter of a formatter is the one its type tag selects in a token
    of that name. *)
Theorem formatter_table_agrees_with_names (url_format : string) :
  ∃ m names,
    from_url_get_required_params url_format = Ok m
    ∧ from_url_get_required_params_names url_format = Ok names
    ∧ length names = length (URL_PARAMS_FINDER_findall url_format)
    ∧ (∀ n, is_Some (m !! n) ↔ n ∈ names)
    ∧ (∀ n f, m !! n = Some f →
         ∃ tok ty, tok ∈ URL_PARAMS_FINDER_findall url_format
           ∧ URL_PARAMS_TYPE_FINDER_match tok = Some (ty, n)
           ∧ converter f = PARAM_TYPE_MAPPER ty).
Proof.
  destruct (required_params_loops_agree (URL_PARAMS_FINDER_findall url_format) ∅
              (findall_from_matches 0 url_format))
    as (m & names & Hm & Hnames & Hlen & Hkeys & Hconv).
  exists m, names. repeat split; [done..| | |].
  - intros [Hempty|Hin]%Hkeys; [|done]. rewrite lookup_empty in Hempty. by destruct Hempty.
  - intros Hin. apply Hkeys. by right.
  - intros n f [Hempty|Htok]%Hconv; [|done]. by rewrite lookup_empty in Hempty.
Qed.

Lemma string_app_empty_r (s : string) : s +:+ "" = s.
Proof.
  induction s as [|c s IH]; [done|].
  change (String c s +:+ "") with (String c (s +:+ "")). by rewrite IH.
Qed.

Lemma placeholder_syntax_matches seg :
  placeholder_syntax seg = true → is_Some (placeholder_name seg).
Proof.
  intros Hseg. pose proof (finder_match_at_placeholder seg "" Hseg) as Hm.
  rewrite string_app_empty_r in Hm. apply finder_token_matches in Hm as [[ty n] Hm].
  unfold placeholder_name. rewrite Hm. by eexists.
Qed.

Lemma names_loop_filter segs :
  Forall (λ seg, no_open_bracket seg || placeholder_syntax seg = true) segs →
  required_params_names_loop (filter (λ seg, placeholder_syntax seg = true) segs)
  = Ok (omap placeholder_name segs).
Proof.
  induction 1 as [|seg segs Hseg _ IH]; [done|]. rewrite filter_cons. simpl.
  apply orb_true_iff in Hseg as [Hseg|Hseg].
  - destruct (literal_not_placeholder _ Hseg) as [Hp ->].
    rewrite decide_False; [done|]. by rewrite Hp.
  - rewrite decide_True by done.
    destruct (placeholder_syntax_matches _ Hseg) as [n Hn]. rewrite Hn.
    unfold placeholder_name in Hn. simpl.
    destruct (URL_PARAMS_TYPE_FINDER_match seg) as [[ty n']|]; [|done].
    simpl in *. inversion Hn; subst. by rewrite IH.
Qed.

(** X2. For a template in the placeholder syntax, the names the generator
    yields are the names of the placeholder segments, in the order of the
    template: the names under which [parse_url] records the values. *)
Theorem names_are_the_placeholder_segments (url_format : string) :
  template_syntax url_format = true →
  from_url_get_required_params_names url_format
  = Ok (omap placeholder_name (split_slash url_format)).
Proof.
  intros Hsyn. unfold template_syntax in Hsyn. rewrite forallb_forall in Hsyn.
  assert (Forall (λ seg, no_open_bracket seg || placeholder_syntax seg = true)
            (split_slash url_format)) as Hall.
  { apply Forall_forall. intros x Hx. apply Hsyn, list_elem_of_In, Hx. }
  unfold from_url_get_required_params_names, URL_PARAMS_FINDER_findall.
  rewrite <-(join_split_slash url_format) at 1.
  rewrite (findall_join _ Hall). by apply names_loop_filter.
Qed.

(** ** The matching function on templates without placeholders *)

Lemma parse_url_loop_same l acc : parse_url_loop (zip l l) acc = Ok acc.
Proof.
  induction l as [|x l IH]; simpl; [done|]. by rewrite bool_decide_eq_true_2.
Qed.

(** X4. A template matched against itself binds nothing, and a template
    none of whose segments is a placeholder matches one path only, itself:
    a missing or additional slash, at the end too, makes [parse_url] raise
    UrlFormatError. *)
Theorem literal_template_matches_itself_only (T : string) :
  parse_url T T = Ok []
  ∧ ((∀ seg, seg ∈ split_slash T → placeholder_name seg = None) →
     ∀ P, (∃ m, parse_url T P = Ok m) ↔ P = T)
  ∧ ((∀ seg, seg ∈ split_slash T → placeholder_name seg = None) →
     ∀ P, P ≠ T → ∃ e, parse_url T P = Err e ∧ is_UrlFormatError e = true).
Proof.
  assert (parse_url T T = Ok []) as Hself.
  { unfold parse_url. rewrite bool_decide_eq_false_2 by (intros Hne; by apply Hne).
    apply parse_url_loop_same. }
  assert ((∀ seg, seg ∈ split_slash T → placeholder_name seg = None) →
          ∀ P, (∃ m, parse_url T P = Ok m) → P = T) as Hlit.
  { intros Hnone P [Hlen Hall]%parse_url_ok_iff.
    rewrite <-(join_split_slash P), <-(join_split_slash T). f_equal.
    symmetry. apply list_eq_same_length with (length (split_slash T)); [done..|].
    intros i f r Hlt Hf Hr. apply (Hall i f r Hf Hr), Hnone.
    by eapply list_elem_of_lookup_2. }
  split; [done|]. split.
  - intros Hnone P. split; [by apply Hlit|]. intros ->. by eexists.
  - intros Hnone P Hne. destruct (parse_url T P) as [m|e] eqn:Hp.
    + destruct Hne. apply (Hlit Hnone). by eexists.
    + exists e. split; [done|]. by eapply parse_url_err.
Qed.

(** ** Parsing after validation ([SimpleRoute.parse_url], lines 152-159) *)

Section ParseFacts.
Context `{PyRuntime} {Handler : Type}.
Implicit Types (r : SimpleRoute Handler) (x : Route Handler)
  (cls : RouteSetClass Handler).

Lemma dict_set_fresh {V} k (v : V) (d : odict V) :
  k ∉ d.*1 → dict_set k v d = d ++ [(k, v)].
Proof.
  induction d as [|[k' v'] d IH]; simpl; [done|].
  intros Hk. apply not_elem_of_cons in Hk as [Hne Hk].
  rewrite bool_decide_eq_false_2 by done. by rewrite IH.
Qed.

Lemma convert_items_ok r items acc :
  all_convertable r items = Ok true → NoDup (acc.*1 ++ items.*1) →
  ∃ typed, convert_items r items acc = Ok (acc ++ typed)
    ∧ Forall2 (converted r) items typed.
Proof.
  revert acc. induction items as [|[k v] items IH]; intros acc; simpl.
  - intros _ _. exists []. by rewrite app_nil_r.
  - unfold formatter_of. destruct (reqired_url_params r !! k) as [f|] eqn:Hf; [|done].
    simpl. rewrite is_convertable_total. simpl.
    destruct (convert f v) as [val|e] eqn:Hc; simpl; [|done].
    intros Hall Hnd. apply NoDup_app in Hnd as (Hacc & Hdisj & Hitems).
    apply NoDup_cons in Hitems as [Hk Hitems].
    rewrite dict_set_fresh by (intros Hin; apply (Hdisj k Hin); left).
    destruct (IH (acc ++ [(k, val)]) Hall) as (typed & Hci & Hty).
    { rewrite fmap_app, <-app_assoc. simpl. apply NoDup_app. split; [done|].
      split; [|by apply NoDup_cons]. intros y Hy. by apply Hdisj. }
    exists ((k, val) :: typed). rewrite Hci, <-app_assoc. split; [done|].
    constructor; [|done]. split; [done|]. by exists f.
Qed.

Lemma convert_items_raises r items acc :
  all_convertable r items = Ok false →
  ∃ e, convert_items r items acc = Err e ∧ is_ValueError e = true.
Proof.
  revert acc. induction items as [|[k v] items IH]; intros acc; simpl; [done|].
  unfold formatter_of. destruct (reqired_url_params r !! k) as [f|]; [|done].
  simpl. rewrite is_convertable_total. simpl.
  destruct (convert f v) as [val|e] eqn:Hc; simpl.
  - apply IH.
  - intros _. exists e. split; [done|]. by eapply convert_err.
Qed.

Lemma validate_then_parse r url :
  SimpleRoute_validate_url r url = Ok true →
  ∃ items typed,
    parse_url (mapped_url r) url = Ok items
    ∧ SimpleRoute_parse_url r url = Ok (handler r, Some typed)
    ∧ Forall2 (converted r) items typed.
Proof.
  unfold SimpleRoute_validate_url, SimpleRoute_parse_url.
  destruct (parse_url (mapped_url r) url) as [items|e] eqn:Hp; simpl.
  - destruct (all_convertable r items) as [[]|e] eqn:Ha; [|done|].
    + intros _. destruct (convert_items_ok r items [] Ha) as (typed & Hc & Hty).
      { by eapply parse_url_keys_NoDup. }
      exists items, typed. by rewrite Hc.
    + destruct (all_convertable_err _ _ _ Ha) as (k & v & _ & _ & ->). done.
  - by rewrite (parse_url_err _ _ _ Hp).
Qed.

(** X6. When [validate_url] has returned true for a path, [parse_url] on the
    same path does not raise: it returns the handler of the route and, for
    every item extracted by the matching function, in the same order, the
    value that the formatter of its name converts it to. *)
Theorem validated_path_parses r url :
  SimpleRoute_validate_url r url = Ok true →
  ∃ items typed,
    parse_url (mapped_url r) url = Ok items
    ∧ SimpleRoute_parse_url r url = Ok (handler r, Some typed)
    ∧ Forall2 (converted r) items typed.
Proof. apply validate_then_parse. Qed.

(** X7. When [validate_url] returns false for a path, [parse_url] on that
    path raises a ValueError: the UrlFormatError of the matching function
    (a subclass of ValueError) or the ValueError of the first conversion
    that fails. *)
Theorem rejected_path_raises r url :
  SimpleRoute_validate_url r url = Ok false →
  ∃ e, SimpleRoute_parse_url r url = Err e ∧ is_ValueError e = true
    ∧ (is_UrlFormatError e = true ↔ parse_url (mapped_url r) url = Err e).
Proof.
  unfold SimpleRoute_validate_url, SimpleRoute_parse_url.
  destruct (parse_url (mapped_url r) url) as [items|e] eqn:Hp; simpl.
  - destruct (all_convertable r items) as [[]|e] eqn:Ha; [done| |].
    + intros _. destruct (convert_items_raises r items [] Ha) as (e & Hc & He).
      exists e. rewrite Hc. split; [done|]. split; [done|]. split; [|done].
      intros Hu. exfalso. clear -Ha Hc Hu.
      assert (∀ acc e, all_convertable r items = Ok false →
                convert_items r items acc = Err e → is_UrlFormatError e = false)
        as Hgen.
      { clear. induction items as [|[k v] items IH]; intros acc e; simpl; [done|].
        unfold formatter_of. destruct (reqired_url_params r !! k) as [f|]; [|done].
        simpl. rewrite is_convertable_total. simpl. unfold convert.
        destruct (converter f); simpl.
        - destruct (int_of_str v); simpl; [apply IH|]. by intros _ [= <-].
        - destruct (float_of_str v); simpl; [apply IH|]. by intros _ [= <-].
        - apply IH. }
      by rewrite (Hgen _ _ Ha Hc) in Hu.
    + destruct (all_convertable_err _ _ _ Ha) as (k & v & _ & _ & ->). done.
  - pose proof (parse_url_err _ _ _ Hp) as Hu. rewrite Hu. intros _.
    exists e. split; [done|]. split; [by destruct e|]. by split.
Qed.

Lemma NestedRoute_validate_Ok (n : NestedRoute Handler) url b :
  NestedRoute_validate_url n url = Ok b →
  ∃ joined, urljoin (url +:+ "/") (default_url_params_str n) = Some joined
    ∧ SimpleRoute_validate_url (mapped_route n) joined = Ok b.
Proof.
  unfold NestedRoute_validate_url, NestedRoute_joined_url.
  destruct (urljoin _ _) as [joined|]; simpl; [|done]. intros Hv. by exists joined.
Qed.

Lemma route_parse_after_validate x url :
  validate_url x url = Ok true →
  ∃ params, Route_parse_url x url = Ok (handler (validating_route x), params)
    ∧ (params = None ↔ parses_to_None x = true).
Proof.
  destruct x as [r|r|n]; simpl.
  - intros Hv. destruct (validate_then_parse _ _ Hv) as (items & typed & _ & Hp & _).
    by exists (Some typed).
  - intros _. by exists None.
  - intros (joined & Hj & Hv)%NestedRoute_validate_Ok.
    rewrite (proj2 (NestedRoute_joined_url_Some _ _ _ Hj)).
    destruct (mapped_route_class n).
    + destruct (validate_then_parse _ _ Hv) as (items & typed & _ & Hp & _).
      by exists (Some typed).
    + by exists None.
Qed.

Lemma validate_url_route_err x url e :
  validate_url x url = Err e →
  (∃ seg name, seg ∈ split_slash (mapped_url (validating_route x))
     ∧ placeholder_name seg = Some name
     ∧ reqired_url_params (validating_route x) !! name = None ∧ e = KeyError name)
  ∨ (∃ n, x = R_Nested n
       ∧ urljoin (url +:+ "/") (default_url_params_str n) = None
       ∧ e = ValueError "Invalid IPv6 URL").
Proof.
  destruct x as [r|r|n]; simpl; [left; by eapply validate_url_err..|].
  unfold NestedRoute_validate_url, NestedRoute_joined_url.
  destruct (urljoin _ _) as [joined|] eqn:Hj; simpl.
  - left. by eapply validate_url_err.
  - intros [= <-]. right. by exists n.
Qed.

(** X9. Whatever the routes in the list, an exception of
    [Router.get_handler] comes from [get_route]: [parse_url] never fails on
    the route that [get_route] has selected. It is raised by the first
    route that does not reject the request, which accepts the verb, and it
    is either a KeyError, the template of the route having a segment with a
    placeholder name for which the route has no formatter, or the
    ValueError of [urljoin] in a NestedRoute. *)
Theorem get_handler_raises_only_from_lookup cls (A : Router Handler) url method e :
  Router_get_handler cls A url method = Err e →
  RouteSet_get_route cls (routes A) url method = Err e
  ∧ ∃ l1 x l2,
      all_routes cls = l1 ++ x :: l2 ∧ Forall (rejects url method) l1
      ∧ validate_method x method = true
      ∧ ((∃ seg name, seg ∈ split_slash (mapped_url (validating_route x))
            ∧ placeholder_name seg = Some name
            ∧ reqired_url_params (validating_route x) !! name = None
            ∧ e = KeyError name)
         ∨ (∃ n, x = R_Nested n
              ∧ urljoin (url +:+ "/") (default_url_params_str n) = None
              ∧ e = ValueError "Invalid IPv6 URL")).
Proof.
  unfold Router_get_handler.
  destruct (RouteSet_get_route cls (routes A) url method) as [r|e'] eqn:Hget; simpl.
  - intros Hparse. exfalso.
    apply get_route_inv in Hget as [(l1 & l2 & Hl & _ & _ & Hv)|[_ ->]]; [|done].
    destruct (route_parse_after_validate r url Hv) as (params & Hp & _). congruence.
  - intros [= ->]. split; [done|].
    apply get_route_raises in Hget as (l1 & x & l2 & Hl & Hl1 & Hm & Hv).
    exists l1, x, l2. repeat split; [done..|]. by eapply validate_url_route_err.
Qed.

(** X10. [Router.get_handler] returns the handler of this Router's
    DefaultRoute with [None] when every registered route rejects the
    request. When the lookup stops at a route that validates it, the
    handler is the one of that route (for a NestedRoute, of the route it
    wraps), and the parameters are [None] exactly when the [parse_url] of
    that route is the one of DefaultRoute. So the sentence of the docstring,
    that [None] means the default handler, holds for the lists in which no
    route is a DefaultRoute or wraps one. *)
Theorem get_handler_none_means_default cls (A : Router Handler) url method :
  (Forall (rejects url method) (all_routes cls) →
     Router_get_handler cls A url method
     = Ok (handler (default_route (routes A)), None))
  ∧ (∀ l1 x l2, all_routes cls = l1 ++ x :: l2 →
       Forall (rejects url method) l1 → both_hold url method x →
       ∃ params,
         Router_get_handler cls A url method
           = Ok (handler (validating_route x), params)
         ∧ (params = None ↔ parses_to_None x = true))
  ∧ (∀ h, Forall (λ x, parses_to_None x = false) (all_routes cls) →
       Router_get_handler cls A url method = Ok (h, None) →
       Forall (rejects url method) (all_routes cls)
       ∧ h = handler (default_route (routes A))).
Proof.
  assert (∀ l1 x l2, all_routes cls = l1 ++ x :: l2 →
            Forall (rejects url method) l1 → both_hold url method x →
            ∃ params,
              Router_get_handler cls A url method
                = Ok (handler (validating_route x), params)
              ∧ (params = None ↔ parses_to_None x = true)) as Hfirst.
  { intros l1 x l2 Hl Hl1 Hx. unfold Router_get_handler.
    rewrite (get_route_first _ _ _ _ l1 x l2 Hl Hl1 Hx). simpl.
    apply route_parse_after_validate. by destruct Hx. }
  split; [|split; [done|]].
  - intros Hrej. unfold Router_get_handler. by rewrite get_route_default.
  - intros h Hkind Hget.
    destruct (RouteSet_get_route cls (routes A) url method) as [r|e] eqn:Hr.
    2: { unfold Router_get_handler in Hget. by rewrite Hr in Hget. }
    apply get_route_inv in Hr as [(l1 & l2 & Hl & Hl1 & Hb)|[Hall ->]].
    + exfalso. destruct (Hfirst l1 r l2 Hl Hl1 Hb) as (params & Hp & Hnone).
      rewrite Hget in Hp. inversion Hp; subst params.
      rewrite Forall_forall in Hkind. rewrite (Hkind r) in Hnone.
      * discriminate (proj1 Hnone eq_refl).
      * rewrite Hl. apply elem_of_app. right. left.
    + split; [done|]. unfold Router_get_handler in Hget.
      rewrite get_route_default in Hget by done. simpl in Hget. by inversion Hget.
Qed.

(** ** Registration: invariants of the route list (lines 221-227, 261-282) *)

Lemma Route_eq_refl x : Route_eq x x = true.
Proof. unfold Route_eq. by rewrite !bool_decide_eq_true_2. Qed.

Lemma Route_eq_sym x y : Route_eq x y = Route_eq y x.
Proof.
  unfold Route_eq. f_equal; apply bool_decide_ext; split; by intros ->.
Qed.

Lemma Router_add_route_kind cls (self : Router Handler) url handler ms dp x cls' :
  Router_add_route cls self url handler ms dp = (Ok x, cls') →
  is_registered_kind x = true.
Proof.
  unfold Router_add_route. destruct handler as [s|s|h|n|]; simpl; [| | |done|done].
  - case_bool_decide; [done|].
    destruct (NestedRoute_init url s _ ms dp); simpl; [|done]. by intros [= <- _].
  - case_bool_decide; [done|].
    destruct (NestedRoute_init url s _ ms dp); simpl; [|done]. by intros [= <- _].
  - destruct (SimpleRoute_init url h ms); simpl; [|done]. by intros [= <- _].
Qed.

Lemma Router_add_route_list cls (self : Router Handler) url handler ms dp res cls' :
  Router_add_route cls self url handler ms dp = (res, cls') →
  match res with
  | Ok x => (has_equal_route cls x ∧ cls' = cls)
            ∨ (¬ has_equal_route cls x ∧ all_routes cls' = all_routes cls ++ [x])
  | Err _ => cls' = cls
  end.
Proof.
  intros Hadd. destruct res as [x|e].
  - assert ((Router_add_route cls self url handler ms dp).1 = Ok x) as Hx
      by by rewrite Hadd.
    rewrite (Router_add_route_result _ _ _ _ _ _ _ Hx) in Hadd.
    destruct (existsb (λ route, Route_eq route x) (all_routes cls)) eqn:Hex.
    + apply existsb_Route_eq in Hex. left. split; [done|].
      rewrite (add_route_duplicate _ _ _ Hex) in Hadd. by inversion Hadd.
    + assert (¬ has_equal_route cls x) as Hne.
      { intros Heq%existsb_Route_eq. congruence. }
      right. split; [done|].
      rewrite (add_route_fresh _ _ _ Hne) in Hadd. by inversion Hadd.
  - unfold Router_add_route in Hadd.
    destruct handler as [s|s|h|n|]; simpl in Hadd; try by inversion Hadd.
    + case_bool_decide; [by inversion Hadd|].
      destruct (NestedRoute_init url s _ ms dp); simpl in Hadd; by inversion Hadd.
    + case_bool_decide; [by inversion Hadd|].
      destruct (NestedRoute_init url s _ ms dp); simpl in Hadd; by inversion Hadd.
    + destruct (SimpleRoute_init url h ms); simpl in Hadd; by inversion Hadd.
Qed.

(** X11. [Router.add_route] keeps two invariants of the route list: it
    holds no DefaultRoute, and no two of its routes are equal for
    [Route.__eq__] (same URL and same list of methods). The list is only
    extended: the old list is a prefix of the new one, which has at most one
    route more, and is unchanged when the call raises. *)
Theorem add_route_keeps_list_invariants cls (self : Router Handler)
    url handler ms dp res cls' :
  Router_add_route cls self url handler ms dp = (res, cls') →
  Forall (λ x, is_registered_kind x = true) (all_routes cls) →
  pairwise_distinct (all_routes cls) →
  Forall (λ x, is_registered_kind x = true) (all_routes cls')
  ∧ pairwise_distinct (all_routes cls')
  ∧ all_routes cls `prefix_of` all_routes cls'
  ∧ length (all_routes cls') ≤ S (length (all_routes cls))
  ∧ (∀ e, res = Err e → cls' = cls).
Proof.
  intros Hadd Hkind Hdist. pose proof (Router_add_route_list _ _ _ _ _ _ _ _ Hadd) as Hl.
  assert (cls' = cls → Forall (λ x, is_registered_kind x = true) (all_routes cls')
            ∧ pairwise_distinct (all_routes cls')
            ∧ all_routes cls `prefix_of` all_routes cls'
            ∧ length (all_routes cls') ≤ S (length (all_routes cls))) as Hsame.
  { intros ->. repeat split; [done..|lia]. }
  destruct res as [x|e].
  2: { destruct (Hsame Hl) as (? & ? & ? & ?). by repeat split. }
  destruct Hl as [[Heq Hl]|[Hne Hl]].
  { destruct (Hsame Hl) as (? & ? & ? & ?). by repeat split. }
  clear Hsame. rewrite Hl. repeat split.
  - apply Forall_app. split; [done|]. constructor; [|done].
    by eapply Router_add_route_kind.
  - intros i j a b Hlt Hi Hj.
    destruct (decide (j < length (all_routes cls))) as [Hj'|Hj'].
    + rewrite lookup_app_l in Hi, Hj by lia. by apply (Hdist i j).
    + assert (j = length (all_routes cls)) as ->.
      { apply lookup_lt_Some in Hj. rewrite length_app in Hj. simpl in Hj. lia. }
      rewrite lookup_app_l in Hi by lia. rewrite list_lookup_middle in Hj by done.
      inversion Hj; subst b. destruct (Route_eq a x) eqn:Heq; [|done].
      destruct Hne. exists a. split; [by eapply list_elem_of_lookup_2|].
      unfold Route_eq in Heq. apply andb_true_iff in Heq as [Hu Hm].
      by apply bool_decide_eq_true_1 in Hu, Hm.
  - by apply prefix_app_r.
  - rewrite length_app. simpl. lia.
  - done.
Qed.

Lemma next_filter_app_stable (pred : Route Handler → result bool) l l' d d' :
  ¬ Forall (λ x, pred x = Ok false) l →
  next_filter pred (l ++ l') d' = next_filter pred l d.
Proof.
  intros Hnot.
  destruct (next_filter_cases pred l d)
    as [(l1 & r & l2 & -> & Hl1 & Hr & Hn)
       |[[Hl Hn]|(l1 & r & l2 & e & -> & Hl1 & Hr & Hn)]]; [|done|].
  - rewrite Hn, <-app_assoc. simpl. by apply next_filter_first.
  - rewrite Hn, <-app_assoc. simpl. by apply next_filter_raise.
Qed.

(** X12. A registration changes the answer of [get_route] and of
    [get_handler], for any Router, only for the requests that every route
    registered before rejects (those that fell to the DefaultRoute): for
    every other request the answer, exceptions included, is what it was. *)
Theorem registration_keeps_answers cls (self : Router Handler)
    url handler ms dp res cls' (B : Router Handler) path verb :
  Router_add_route cls self url handler ms dp = (res, cls') →
  ¬ Forall (rejects path verb) (all_routes cls) →
  RouteSet_get_route cls' (routes B) path verb
    = RouteSet_get_route cls (routes B) path verb
  ∧ Router_get_handler cls' B path verb = Router_get_handler cls B path verb.
Proof.
  intros Hadd Hnot.
  assert (RouteSet_get_route cls' (routes B) path verb
          = RouteSet_get_route cls (routes B) path verb) as Hget.
  { pose proof (Router_add_route_list _ _ _ _ _ _ _ _ Hadd) as Hl.
    destruct res as [x|e]; [|by subst].
    destruct Hl as [[Heq ->]|[Hne Hl]]; [done|].
    unfold RouteSet_get_route. rewrite Hl. apply next_filter_app_stable.
    by rewrite <-Forall_rejects. }
  split; [done|]. unfold Router_get_handler. by rewrite Hget.
Qed.

(** X13. Registering twice with the same arguments: the second call
    returns an equal route and leaves the list as the first call left it,
    whether the first call appended its route or not. *)
Theorem registration_is_idempotent cls (self : Router Handler)
    url handler ms dp x cls1 :
  Router_add_route cls self url handler ms dp = (Ok x, cls1) →
  Router_add_route cls1 self url handler ms dp = (Ok x, cls1).
Proof.
  intros Hadd.
  assert ((Router_add_route cls1 self url handler ms dp).1 = Ok x) as Hx.
  { rewrite <-(Router_add_route_any_class cls). by rewrite Hadd. }
  rewrite (Router_add_route_result _ _ _ _ _ _ _ Hx). f_equal.
  rewrite add_route_duplicate; [done|].
  pose proof (Router_add_route_list _ _ _ _ _ _ _ _ Hadd) as Hl. simpl in Hl.
  destruct Hl as [[Heq ->]|[Hne Hl]]; [done|].
  exists x. split; [|done]. rewrite Hl. apply elem_of_app. right. left.
Qed.

(** X14. The decorator returns the Route, not the function. So, of two
    decorators stacked on one function, the upper one receives the
    SimpleRoute built by the lower one: without default parameters it raises
    the ValueError that asks for them, the lower route staying registered;
    with default parameters it builds a NestedRoute around that SimpleRoute;
    and a third decorator above, receiving the NestedRoute, raises the
    ValueError of an unsupported handler. *)
Theorem stacked_decorators cls (self : Router Handler) (f : Handler) url1 ms1 dp1 :
  ∃ s cls1,
    Router_route self url1 ms1 dp1 (A_Callable f) cls = (Ok (R_Simple s), cls1)
    ∧ handler s = f
    ∧ route_as_handler (R_Simple s) = Some (A_SimpleRoute s)
    ∧ (∀ url2 ms2,
         Router_route self url2 ms2 ∅ (A_SimpleRoute s) cls1
         = (Err (ValueError "for NestedRoute default_params are required"), cls1))
    ∧ (∀ url2 ms2 dp2, dp2 ≠ ∅ →
         ∃ n cls2,
           Router_route self url2 ms2 dp2 (A_SimpleRoute s) cls1
             = (Ok (R_Nested n), cls2)
           ∧ mapped_route n = s
           ∧ route_as_handler (R_Nested n) = Some (A_NestedRoute n)
           ∧ ∀ url3 ms3 dp3,
               Router_route self url3 ms3 dp3 (A_NestedRoute n) cls2
               = (Err (ValueError "routing not implemented for handler of type"),
                  cls2)).
Proof.
  unfold Router_route.
  destruct (SimpleRoute_init_total url1 f ms1) as [s Hs].
  destruct (SimpleRoute_init_ok _ _ _ _ Hs) as (_ & _ & Hh & _).
  exists s, (RouteSet_add_route cls (routes self) (R_Simple s)).2.
  split; [unfold Router_add_route; by rewrite Hs|].
  split; [done|]. split; [done|]. split; [done|].
  intros url2 ms2 dp2 Hdp.
  destruct (NestedRoute_init_total url2 s C_SimpleRoute ms2 dp2)
    as (n & Hn & _ & _ & Hm & _).
  eexists n, _. split; [|done].
  unfold Router_add_route. rewrite bool_decide_eq_false_2 by done. by rewrite Hn.
Qed.

(** X15. [set_default_handler] changes the answer of [get_handler] only for
    the requests that every registered route rejects, for which the answer
    becomes the new handler with [None]; the last handler set is the one
    that counts, and the routes registered are left as they are. *)
Theorem set_default_handler_scope cls (A : Router Handler) (h1 h2 : Handler) path verb :
  (¬ Forall (rejects path verb) (all_routes cls) →
     Router_get_handler cls (Router_set_default_handler A h1) path verb
     = Router_get_handler cls A path verb)
  ∧ (Forall (rejects path verb) (all_routes cls) →
     Router_get_handler cls (Router_set_default_handler A h1) path verb
     = Ok (h1, None))
  ∧ Router_set_default_handler (Router_set_default_handler A h1) h2
    = Router_set_default_handler A h2.
Proof.
  split; [|split; [|done]].
  - intros Hnot. unfold Router_get_handler, RouteSet_get_route.
    rewrite <-(app_nil_r (all_routes cls)).
    rewrite (next_filter_app_stable _ _ [] (R_Default (default_route (routes A))));
      [|by rewrite <-Forall_rejects].
    rewrite (next_filter_app_stable _ _ [] (R_Default (default_route (routes A)))
               (R_Default (default_route (routes A)))); [done|].
    by rewrite <-Forall_rejects.
  - intros Hall. unfold Router_get_handler. by rewrite get_route_default.
Qed.

(** X16. A NestedRoute ignores the default parameters whose names are not
    placeholder names of the route it wraps: adding such an entry changes
    nothing, and when no placeholder name has a default the suffix is empty. *)
Theorem nested_route_ignores_unknown_defaults url (s : SimpleRoute Handler) c ms
    (dp : gmap string pyobject) names :
  from_url_get_required_params_names (mapped_url s) = Ok names →
  (∀ k v, k ∉ names →
     NestedRoute_init url s c ms (<[k := v]> dp) = NestedRoute_init url s c ms dp)
  ∧ ((∀ name, name ∈ names → dp !! name = None) →
     NestedRoute_init url s c ms dp = Ok (mkNestedRoute url ms s c "")).
Proof.
  intros Hnames. unfold NestedRoute_init. rewrite Hnames. simpl. split.
  - intros k v Hk. do 2 f_equal. f_equal.
    assert (∀ l : list string, k ∉ l →
              omap (λ name, py_str <$> <[k:=v]> dp !! name) l
              = omap (λ name, py_str <$> dp !! name) l) as Hgen.
    { induction l as [|a l IH]; [done|]. intros [Hne Hl]%not_elem_of_cons. csimpl.
      rewrite lookup_insert_ne by done. by rewrite IH. }
    by apply Hgen.
  - intros Hnone. do 2 f_equal.
    assert (∀ l : list string, (∀ name, name ∈ l → dp !! name = None) →
              omap (λ name, py_str <$> dp !! name) l = []) as Hgen.
    { induction l as [|a l IH]; [done|]. intros Hl. csimpl.
      rewrite (Hl a) by left. csimpl. apply IH. intros name Hin. apply Hl. by right. }
    by rewrite Hgen.
Qed.

(** X8. A SimpleRoute built from a template in the placeholder syntax
    has a formatter for every name the matcher can extract: [validate_url]
    returns a boolean for every path, and whenever it returns true
    [parse_url] returns the handler with the typed parameters. *)
Theorem syntax_template_never_raises url (h : Handler) ms r :
  template_syntax url = true →
  SimpleRoute_init url h ms = Ok r →
  names_have_formatters r = true
  ∧ ∀ path,
      (SimpleRoute_validate_url r path = Ok false
       ∧ ∃ e, SimpleRoute_parse_url r path = Err e ∧ is_ValueError e = true)
      ∨ (SimpleRoute_validate_url r path = Ok true
         ∧ ∃ typed, SimpleRoute_parse_url r path = Ok (h, Some typed)).
Proof.
  intros Hsyn Hr.
  pose proof (template_syntax_names_have_formatters _ _ _ _ Hsyn Hr) as Hnames.
  split; [done|]. intros path.
  destruct (SimpleRoute_init_ok _ _ _ _ Hr) as (_ & _ & Hh & _).
  destruct (validate_url_total r path Hnames) as [[] Hb].
  - right. split; [done|].
    destruct (validate_then_parse _ _ Hb) as (items & typed & _ & Hp & _).
    exists typed. by rewrite Hp, Hh.
  - left. split; [done|].
    unfold SimpleRoute_validate_url, SimpleRoute_parse_url in *.
    destruct (parse_url (mapped_url r) path) as [items|e] eqn:Hp; simpl in *.
    + destruct (all_convertable r items) as [[]|e] eqn:Ha; [done| |].
      * destruct (convert_items_raises r items [] Ha) as (e & Hc & He).
        exists e. by rewrite Hc.
      * destruct (all_convertable_err _ _ _ Ha) as (k & v & _ & _ & ->). done.
    + exists e. split; [done|]. pose proof (parse_url_err _ _ _ Hp). by destruct e.
Qed.

End ParseFacts.

(** ** The further properties on the examples *)

Lemma names_are_the_placeholder_segments_witness :
  template_syntax "/url/format/<int:name1>/<name2>" = true
  ∧ from_url_get_required_params_names "/url/format/<int:name1>/<name2>"
    = Ok ["name1"; "name2"].
Proof.
  split; [reflexivity|].
  exact (names_are_the_placeholder_segments "/url/format/<int:name1>/<name2>" eq_refl).
Defined.

Lemma literal_template_matches_itself_only_witness :
  (∃ m, parse_url "/test/this/url" "/test/this/url" = Ok m)
  ∧ ∃ e, parse_url "/test/this/url" "/test/this/url/" = Err e
      ∧ is_UrlFormatError e = true.
Proof.
  assert (∀ seg, seg ∈ split_slash "/test/this/url" → placeholder_name seg = None)
    as Hlit.
  { intros seg Hseg. simpl in Hseg.
    repeat (apply elem_of_cons in Hseg as [->|Hseg]); try reflexivity.
    by apply elem_of_nil in Hseg. }
  destruct (literal_template_matches_itself_only "/test/this/url")
    as (_ & Hiff & Hother).
  split; [by apply (Hiff Hlit)|]. by apply (Hother Hlit).
Defined.

Lemma validated_path_parses_witness :
  SimpleRoute_validate_url items_route "/items/42" = Ok true
  ∧ ∃ items typed,
      parse_url (mapped_url items_route) "/items/42" = Ok items
      ∧ SimpleRoute_parse_url items_route "/items/42" = Ok (handler items_route, Some typed)
      ∧ Forall2 (converted items_route) items typed.
Proof.
  split; [reflexivity|].
  exact (validated_path_parses items_route "/items/42" eq_refl).
Defined.

Lemma rejected_path_raises_witness :
  SimpleRoute_validate_url items_route "/items/abc" = Ok false
  ∧ ∃ e, SimpleRoute_parse_url items_route "/items/abc" = Err e
      ∧ is_ValueError e = true
      ∧ (is_UrlFormatError e = true
         ↔ parse_url (mapped_url items_route) "/items/abc" = Err e).
Proof.
  split; [reflexivity|].
  exact (rejected_path_raises items_route "/items/abc" eq_refl).
Defined.

Lemma syntax_template_never_raises_witness :
  template_syntax "/items/<int:id>" = true
  ∧ SimpleRoute_init "/items/<int:id>" "h" [GET] = Ok items_route
  ∧ names_have_formatters items_route = true.
Proof.
  split; [reflexivity|]. split; [reflexivity|].
  exact (proj1 (syntax_template_never_raises "/items/<int:id>" "h" [GET] items_route
                  eq_refl eq_refl)).
Defined.

Lemma get_handler_raises_only_from_lookup_witness :
  Router_get_handler (mkRouteSetClass [R_Simple bad_route; R_Simple good_route])
    router0 "/v" GET = Err (KeyError "a>")
  ∧ RouteSet_get_route (mkRouteSetClass [R_Simple bad_route; R_Simple good_route])
      (routes router0) "/v" GET = Err (KeyError "a>")
  ∧ Router_get_handler (mkRouteSetClass [R_Nested nested_bar]) router0 "//[" GET
    = Err (ValueError "Invalid IPv6 URL")
  ∧ RouteSet_get_route (mkRouteSetClass [R_Nested nested_bar]) (routes router0)
      "//[" GET = Err (ValueError "Invalid IPv6 URL").
Proof.
  split; [reflexivity|]. split.
  - exact (proj1 (get_handler_raises_only_from_lookup
                    (mkRouteSetClass [R_Simple bad_route; R_Simple good_route])
                    router0 "/v" GET (KeyError "a>") eq_refl)).
  - split; [reflexivity|].
    exact (proj1 (get_handler_raises_only_from_lookup
                    (mkRouteSetClass [R_Nested nested_bar])
                    router0 "//[" GET (ValueError "Invalid IPv6 URL") eq_refl)).
Defined.

Lemma get_handler_none_means_default_witness :
  Router_get_handler three_routes router0 "/y" GET = Ok ("not_found", None)
  ∧ Forall (rejects "/y" GET) (all_routes three_routes)
  ∧ both_hold "/a" GET (R_Nested nested_default)
  ∧ ∃ params,
      Router_get_handler (mkRouteSetClass [R_Nested nested_default]) router0 "/a" GET
        = Ok ("dh", params)
      ∧ (params = None ↔ parses_to_None (R_Nested nested_default) = true).
Proof.
  destruct (get_handler_none_means_default three_routes router0 "/y" GET)
    as (_ & _ & Hdoc).
  destruct (get_handler_none_means_default (mkRouteSetClass [R_Nested nested_default])
              router0 "/a" GET) as (_ & Hfirst & _).
  split; [reflexivity|]. split.
  - apply (Hdoc "not_found"); [by repeat constructor|reflexivity].
  - split; [by split|].
    apply (Hfirst [] (R_Nested nested_default) []); [reflexivity|constructor|by split].
Defined.

Lemma one_route_pairwise_distinct :
  pairwise_distinct [R_Simple x_route].
Proof.
  intros i j x y Hlt Hi Hj. apply lookup_lt_Some in Hj. simpl in Hj. lia.
Defined.

Lemma add_route_keeps_list_invariants_witness :
  Router_add_route (mkRouteSetClass [R_Simple x_route]) router0 "/items/<int:id>"
    (A_Callable "h") [GET] ∅
  = (Ok (R_Simple items_route), mkRouteSetClass [R_Simple x_route; R_Simple items_route])
  ∧ pairwise_distinct [R_Simple x_route; R_Simple items_route].
Proof.
  split; [reflexivity|].
  refine (proj1 (proj2 (add_route_keeps_list_invariants
                          (mkRouteSetClass [R_Simple x_route]) router0
                          "/items/<int:id>" (A_Callable "h") [GET] ∅
                          (Ok (R_Simple items_route))
                          (mkRouteSetClass [R_Simple x_route; R_Simple items_route])
                          eq_refl _ one_route_pairwise_distinct))).
  by repeat constructor.
Defined.

Lemma x_route_does_not_reject :
  ¬ Forall (rejects "/x" GET) (all_routes (mkRouteSetClass [R_Simple x_route])).
Proof.
  intros Hall. apply Forall_cons in Hall as [[Hm|Hv] _]; discriminate.
Defined.

Lemma registration_keeps_answers_witness :
  Router_add_route (mkRouteSetClass [R_Simple x_route]) router_A "/x"
    (A_Callable "later") [GET; POST] ∅
  = (Ok (R_Simple later_route), mkRouteSetClass [R_Simple x_route; R_Simple later_route])
  ∧ Router_get_handler (mkRouteSetClass [R_Simple x_route; R_Simple later_route])
      router_B "/x" GET
    = Router_get_handler (mkRouteSetClass [R_Simple x_route]) router_B "/x" GET.
Proof.
  split; [reflexivity|].
  exact (proj2 (registration_keeps_answers (mkRouteSetClass [R_Simple x_route])
                  router_A "/x" (A_Callable "later") [GET; POST] ∅
                  (Ok (R_Simple later_route))
                  (mkRouteSetClass [R_Simple x_route; R_Simple later_route])
                  router_B "/x" GET eq_refl x_route_does_not_reject)).
Defined.

Lemma registration_is_idempotent_witness :
  Router_add_route (mkRouteSetClass []) router0 "/x" (A_Callable "h") [GET] ∅
  = (Ok (R_Simple x_route), mkRouteSetClass [R_Simple x_route])
  ∧ Router_add_route (mkRouteSetClass [R_Simple x_route]) router0 "/x"
      (A_Callable "h") [GET] ∅
    = (Ok (R_Simple x_route), mkRouteSetClass [R_Simple x_route]).
Proof.
  split; [reflexivity|].
  exact (registration_is_idempotent (mkRouteSetClass []) router0 "/x"
           (A_Callable "h") [GET] ∅ (R_Simple x_route)
           (mkRouteSetClass [R_Simple x_route]) eq_refl).
Defined.

Lemma nested_route_ignores_unknown_defaults_witness :
  from_url_get_required_params_names (mapped_url items_route) = Ok ["id"]
  ∧ NestedRoute_init "/short" items_route C_SimpleRoute [GET]
      (<["other" := Reference.O_int 7]> {["id" := Reference.O_int 1]})
    = NestedRoute_init "/short" items_route C_SimpleRoute [GET]
        {["id" := Reference.O_int 1]}
  ∧ NestedRoute_init "/short" items_route C_SimpleRoute [GET]
      {["other" := Reference.O_int 7]}
    = Ok (mkNestedRoute "/short" [GET] items_route C_SimpleRoute "").
Proof.
  split; [reflexivity|].
  destruct (nested_route_ignores_unknown_defaults "/short" items_route C_SimpleRoute
              [GET] {["id" := Reference.O_int 1]} ["id"] eq_refl) as [Hignore _].
  destruct (nested_route_ignores_unknown_defaults "/short" items_route C_SimpleRoute
              [GET] {["other" := Reference.O_int 7]} ["id"] eq_refl) as [_ Hempty].
  split.
  - apply Hignore. intros Hin%list_elem_of_singleton. discriminate Hin.
  - apply Hempty. intros name Hin%list_elem_of_singleton. by rewrite Hin.
Defined.

Lemma is_convertable_agrees_with_convert_witness :
  convert (mkFormatter T_str) "oh_yeah" = Ok (VStr "oh_yeah")
  ∧ is_convertable (mkFormatter T_str) "oh_yeah" = Ok true.
Proof.
  exact (proj2 (proj2 (is_convertable_agrees_with_convert
                         (mkFormatter T_str) "oh_yeah")) eq_refl).
Defined.

Lemma stacked_decorators_witness :
  ∃ s cls1,
    Router_route router0 "/test/<int:this>/<url>" [GET; POST] ∅ (A_Callable "oll")
      (mkRouteSetClass []) = (Ok (R_Simple s), cls1)
    ∧ handler s = "oll"
    ∧ ∃ n cls2,
        Router_route router0 "/test/<int:this>" [GET; POST]
          {["url" := Reference.O_str "bar"]} (A_SimpleRoute s) cls1
        = (Ok (R_Nested n), cls2)
        ∧ mapped_route n = s.
Proof.
  destruct (stacked_decorators (mkRouteSetClass []) router0 "oll"
              "/test/<int:this>/<url>" [GET; POST] ∅)
    as (s & cls1 & Hlow & Hh & _ & _ & Hup).
  exists s, cls1. split; [exact Hlow|]. split; [exact Hh|].
  destruct (Hup "/test/<int:this>" [GET; POST] {["url" := Reference.O_str "bar"]})
    as (n & cls2 & Hn & Hm & _).
  - intros Hempty. apply (f_equal (λ m, m !! "url")) in Hempty. discriminate Hempty.
  - exists n, cls2. by split.
Defined.

Lemma set_default_handler_scope_witness :
  Forall (rejects "/y" GET) (all_routes (mkRouteSetClass [R_Simple x_route]))
  ∧ Router_get_handler (mkRouteSetClass [R_Simple x_route])
      (Router_set_default_handler router0 "fallback") "/y" GET
    = Ok ("fallback", None)
  ∧ Router_get_handler (mkRouteSetClass [R_Simple x_route])
      (Router_set_default_handler router0 "fallback") "/x" GET
    = Router_get_handler (mkRouteSetClass [R_Simple x_route]) router0 "/x" GET.
Proof.
  assert (Forall (rejects "/y" GET) (all_routes (mkRouteSetClass [R_Simple x_route])))
    as Hall by (repeat constructor; by right).
  destruct (set_default_handler_scope (mkRouteSetClass [R_Simple x_route]) router0
              "fallback" "fallback" "/y" GET) as (_ & Hdef & _).
  destruct (set_default_handler_scope (mkRouteSetClass [R_Simple x_route]) router0
              "fallback" "fallback" "/x" GET) as (Hkeep & _ & _).
  split; [exact Hall|]. split; [exact (Hdef Hall)|].
  exact (Hkeep x_route_does_not_reject).
Defined.
